(** * vpnctl: a shallow embedding of [vpnctl.py] and its specification

    The script drives a NetworkManager VPN profile through the [nmcli]
    command-line tool and scrapes a provider page for server addresses.
    Everything the script touches outside its own process (the tool, the
    web page, the console, the clock) is part of an explicit [World]; every
    function of the script becomes a computation in the [Py] monad, which
    threads the world and carries Python exceptions. *)

From Stdlib Require Import ZArith NArith Ascii String DecimalString.
From Stdlib Require DecimalNat.
From Stdlib.Strings Require Import Byte.
From stdpp Require Import base option list gmap.

Local Open Scope N_scope.

(** ** Python values: [str], [bytes] *)

(** A Python [str] is a sequence of Unicode code points. *)
Abbreviation pystr := (list N) (only parsing).
Abbreviation bytes := (list byte) (only parsing).

(** ASCII literals of the source text. *)
Definition py (s : string) : pystr :=
  List.map N_of_ascii (list_ascii_of_string s).

Definition SPACE : N := 32.

(** [Py_UNICODE_ISSPACE]: the characters [str.strip()] and [int()] treat as
    white space. *)
Definition isspace (c : N) : bool :=
  ((9 <=? c) && (c <=? 13)) || ((28 <=? c) && (c <=? 32))
  || (c =? 133) || (c =? 160) || (c =? 5760)
  || ((8192 <=? c) && (c <=? 8202))
  || (c =? 8232) || (c =? 8233) || (c =? 8239) || (c =? 8287) || (c =? 12288).

Fixpoint lstrip (s : pystr) : pystr :=
  match s with
  | c :: s' => if isspace c then lstrip s' else s
  | [] => []
  end.

Definition rstrip (s : pystr) : pystr := rev (lstrip (rev s)).

(** [s.strip()] *)
Definition strip (s : pystr) : pystr := rstrip (lstrip s).

Fixpoint startswith (s p : pystr) : bool :=
  match p, s with
  | [], _ => true
  | a :: p', b :: s' => (a =? b) && startswith s' p'
  | _ :: _, [] => false
  end.

(** [s.split(sep)] for a non-empty [sep]: the occurrences of [sep] are found
    left to right and do not overlap.  [skip] counts the characters of a
    separator that is being stepped over, [cur] is the piece collected so
    far, in reverse. *)
Fixpoint split_go (sep s : pystr) (skip : nat) (cur : pystr) : list pystr :=
  match s with
  | [] => [rev cur]
  | c :: s' =>
      match skip with
      | S k => split_go sep s' k cur
      | O =>
          if startswith s sep
          then rev cur :: split_go sep s' (length sep - 1) []
          else split_go sep s' O (c :: cur)
      end
  end.

Definition split (s sep : pystr) : list pystr := split_go sep s O [].

(** [s.ljust(width)]: pad with spaces on the right; never truncates. *)
Definition ljust (s : pystr) (width : nat) : pystr :=
  s ++ replicate (width - length s) SPACE.

(** [str(n)] for a non-negative integer. *)
Definition str_of_nat (n : nat) : pystr :=
  py (NilZero.string_of_uint (Nat.to_uint n)).

(** ** UTF-8, the codec of [bytes.decode()] *)

Definition cont (b : byte) : option N :=
  let n := Byte.to_N b in
  if (128 <=? n) && (n <=? 191) then Some (n - 128) else None.

Definition in_range (lo hi : N) (b : byte) : bool :=
  (lo <=? Byte.to_N b) && (Byte.to_N b <=? hi).

(** Strict UTF-8: no overlong forms, no surrogates, nothing above U+10FFFF.
    [None] stands for [UnicodeDecodeError]. *)
Fixpoint utf8_decode (bs : bytes) : option pystr :=
  match bs with
  | [] => Some []
  | b0 :: r0 =>
      let n0 := Byte.to_N b0 in
      if n0 <? 128 then cons n0 <$> utf8_decode r0
      else if (194 <=? n0) && (n0 <=? 223) then
        match r0 with
        | b1 :: r1 =>
            match cont b1 with
            | Some c1 => cons ((n0 - 192) * 64 + c1) <$> utf8_decode r1
            | None => None
            end
        | _ => None
        end
      else if (224 <=? n0) && (n0 <=? 239) then
        match r0 with
        | b1 :: b2 :: r2 =>
            let lo := if n0 =? 224 then 160 else 128 in
            let hi := if n0 =? 237 then 159 else 191 in
            match cont b1, cont b2 with
            | Some c1, Some c2 =>
                if in_range lo hi b1
                then cons ((n0 - 224) * 4096 + c1 * 64 + c2) <$> utf8_decode r2
                else None
            | _, _ => None
            end
        | _ => None
        end
      else if (240 <=? n0) && (n0 <=? 244) then
        match r0 with
        | b1 :: b2 :: b3 :: r3 =>
            let lo := if n0 =? 240 then 144 else 128 in
            let hi := if n0 =? 244 then 143 else 191 in
            match cont b1, cont b2, cont b3 with
            | Some c1, Some c2, Some c3 =>
                if in_range lo hi b1
                then cons ((n0 - 240) * 262144 + c1 * 4096 + c2 * 64 + c3)
                       <$> utf8_decode r3
                else None
            | _, _, _ => None
            end
        | _ => None
        end
      else None
  end.

Definition byte_of (n : N) : byte := default x00 (Byte.of_N n).

Definition utf8_encode_char (c : N) : bytes :=
  if c <? 128 then [byte_of c]
  else if c <? 2048 then [byte_of (192 + c / 64); byte_of (128 + c mod 64)]
  else if c <? 65536 then
    [byte_of (224 + c / 4096); byte_of (128 + (c / 64) mod 64);
     byte_of (128 + c mod 64)]
  else
    [byte_of (240 + c / 262144); byte_of (128 + (c / 4096) mod 64);
     byte_of (128 + (c / 64) mod 64); byte_of (128 + c mod 64)].

Definition utf8_encode (s : pystr) : bytes :=
  concat (List.map utf8_encode_char s).


Local Close Scope N_scope.

(** ** The document tree of [bs4]

    [BeautifulSoup(html_doc, "html.parser")] is a library call; the script
    only walks the tree it returns.  The tree has text nodes and tags (the
    soup itself is the tag ["[document]"]); attributes play no role in the
    script and are left out. *)

#[warnings="-register-all"]
Inductive node : Type :=
| NavigableString (s : pystr)
| Tag (name : pystr) (contents : list node).

(** [tag.children]: the direct children, in document order. *)
Definition children (n : node) : list node :=
  match n with
  | Tag _ cs => cs
  | NavigableString _ => []
  end.

(** [tag.descendants]: every node below [n], in document order. *)
Fixpoint descendants (n : node) : list node :=
  match n with
  | NavigableString _ => []
  | Tag _ cs => flat_map (fun c => c :: descendants c) cs
  end.

Definition is_tag (n : node) : bool :=
  match n with Tag _ _ => true | NavigableString _ => false end.

Definition has_name (nm : pystr) (n : node) : bool :=
  match n with
  | Tag nm' _ => bool_decide (nm' = nm)
  | NavigableString _ => false
  end.

(** [tag.find_all(name)] searches all descendants; [tag.find(name)] is its
    first result, or [None]. *)
Definition find_all (n : node) (nm : pystr) : list node :=
  List.filter (has_name nm) (descendants n).

Definition find (n : node) (nm : pystr) : option node :=
  head (find_all n nm).

(** [tag.string]: the single text below a chain of only children, [None]
    when a tag on the way has no child or several. *)
Fixpoint string_of (n : node) : option pystr :=
  match n with
  | NavigableString s => Some s
  | Tag _ [c] => string_of c
  | Tag _ _ => None
  end.

(** ** Exceptions, events and the world *)

(** What a name can be bound to, as far as the script can tell the
    difference: a [str], or some other (hashable) object. *)
Inductive object : Type :=
| OStr (s : pystr)
| OOther.

Inductive exn : Type :=
| CalledProcessError (returncode : Z)
| NameError (name : pystr)
| KeyError (key : object)
| ValueError
| OverflowError
| UnicodeDecodeError
| IndexError
| AttributeError
| TypeError
| EOFError
| RequestException.

Inductive result (A : Type) : Type :=
| Ok (a : A)
| Raise (e : exn).
Arguments Ok {A} a.
Arguments Raise {A} e.

(** What the process does to its surroundings, in the order it does it. *)
Inductive event : Type :=
| EvRun (argv : list pystr) (returncode : Z)   (* a child process, waited for *)
| EvSleep (seconds : Z)                        (* [time.sleep] *)
| EvWrite (line : pystr)                       (* [print] *)
| EvPrompt (prompt : pystr)                    (* the prompt of [input] *)
| EvGet (url : pystr).                         (* [requests.get] *)

(** The external command-line tool: from the argument vector and the state
    of the host to the new state, the exit code and the captured output.
    A negative code stands for a child killed by a signal, as in
    [subprocess]. *)
Class ExternalTool (M : Type) := exec : list pystr -> M -> M * (Z * bytes).

Record World (M : Type) : Type := mkWorld {
  host : M;                        (* the state behind the external tool *)
  stdin : list pystr;              (* the lines still to be read *)
  web : pystr -> option node;      (* parsed page per URL, [None]: no answer *)
  log : list event
}.
Arguments mkWorld {M}.
Arguments host {M}.
Arguments stdin {M}.
Arguments web {M}.
Arguments log {M}.

(** Computations of the script: world passing with exceptions. *)
Definition Py (M A : Type) : Type := World M -> World M * result A.

#[export] Instance Py_ret {M} : MRet (Py M) :=
  fun A (a : A) w => (w, Ok a).

#[export] Instance Py_bind {M} : MBind (Py M) :=
  fun A B (f : A -> Py M B) (c : Py M A) w =>
    match c w with
    | (w', Ok a) => f a w'
    | (w', Raise e) => (w', Raise e)
    end.

#[export] Instance Py_fmap {M} : FMap (Py M) :=
  fun A B (f : A -> B) (c : Py M A) => a ← c; mret (f a).

Definition raise {M A : Type} (e : exn) : Py M A := fun w => (w, Raise e).

(** The world after more events. *)
Definition logged {M : Type} (w : World M) (evs : list event) : World M :=
  mkWorld (host w) (stdin w) (web w) (log w ++ evs).

(** The world after lines have been read: [rest] are the lines left. *)
Definition consumed {M : Type} (w : World M) (rest : list pystr)
  (evs : list event) : World M :=
  mkWorld (host w) rest (web w) (log w ++ evs).

Definition emit {M : Type} (e : event) : Py M unit :=
  fun w => (logged w [e], Ok tt).

Section Primitives.
Context {M : Type} {T : ExternalTool M}.

(** [subprocess.check_output(argv)]: run the tool, wait for it, return its
    output, or raise [CalledProcessError] with its non-zero exit code. *)
Definition check_output (argv : list pystr) : Py M bytes :=
  fun w =>
    let '(h, (rc, out)) := exec argv (host w) in
    let w' := mkWorld h (stdin w) (web w) (log w ++ [EvRun argv rc]) in
    if (rc =? 0)%Z then (w', Ok out) else (w', Raise (CalledProcessError rc)).

(** [time.sleep(secs)] for a whole number of seconds.  The length is first
    turned into nanoseconds in a signed 64-bit integer, an [OverflowError]
    when it does not fit; a negative length is then a [ValueError]. *)
Definition sleep (secs : Z) : Py M unit :=
  let ns := (secs * 1000000000)%Z in
  if ((ns <? - 2 ^ 63) || (2 ^ 63 - 1 <? ns))%Z then raise OverflowError
  else if (ns <? 0)%Z then raise ValueError
  else emit (EvSleep secs).

(** [print(line)] *)
Definition print (line : pystr) : Py M unit := emit (EvWrite line).

(** The next line of the standard input, without its newline; [EOFError]
    when the input has ended. *)
Definition readline : Py M pystr :=
  fun w =>
    match stdin w with
    | l :: ls => (mkWorld (host w) ls (web w) (log w), Ok l)
    | [] => (w, Raise EOFError)
    end.

(** [input(prompt)]: write the prompt, read one line. *)
Definition input (prompt : pystr) : Py M pystr :=
  emit (EvPrompt prompt) ;; readline.

(** What the server sends for [url], parsed; a request without an answer
    raises. *)
Definition response (url : pystr) : Py M node :=
  fun w =>
    match web w url with
    | Some soup => (w, Ok soup)
    | None => (w, Raise RequestException)
    end.

(** [requests.get(url)] followed by [bs4.BeautifulSoup(r.content,
    "html.parser")]. *)
Definition fetch_soup (url : pystr) : Py M node :=
  emit (EvGet url) ;; response url.
End Primitives.

(** ** Names and dictionaries *)

(** The names bound at module level of [vpnctl.py]. *)
Definition module_globals : list pystr :=
  List.map py
    ["__name__"; "__doc__"; "__package__"; "__loader__"; "__spec__";
     "__file__"; "__cached__"; "__builtins__";
     "bs4"; "requests"; "sys"; "subprocess"; "os"; "argparse"; "time";
     "DEFAULT_SERVER_LIST_URL"; "DEFAULT_CONNECTION_NAME";
     "DEFAULT_RESTART_DELAY_SECONDS";
     "VpnConnection"; "parse_arguments"; "get_servers_list";
     "print_servers_list"; "get_chosen_server"; "main"]%string.

(** The names of the [builtins] module (CPython 3.11). *)
Definition builtin_names : list pystr :=
  List.map py
    ["abs"; "aiter"; "all"; "anext"; "any"; "ascii"; "bin"; "bool";
     "breakpoint"; "bytearray"; "bytes"; "callable"; "chr"; "classmethod";
     "compile"; "complex"; "copyright"; "credits"; "delattr"; "dict"; "dir";
     "divmod"; "enumerate"; "eval"; "exec"; "exit"; "filter"; "float";
     "format"; "frozenset"; "getattr"; "globals"; "hasattr"; "hash"; "help";
     "hex"; "id"; "input"; "int"; "isinstance"; "issubclass"; "iter"; "len";
     "license"; "list"; "locals"; "map"; "max"; "memoryview"; "min"; "next";
     "object"; "oct"; "open"; "ord"; "pow"; "print"; "property"; "quit";
     "range"; "repr"; "reversed"; "round"; "set"; "setattr"; "slice";
     "sorted"; "staticmethod"; "str"; "sum"; "super"; "tuple"; "type";
     "vars"; "zip"; "__import__"; "__build_class__"; "__debug__";
     "__doc__"; "__loader__"; "__name__"; "__package__"; "__spec__";
     "Ellipsis"; "False"; "None"; "NotImplemented"; "True";
     "ArithmeticError"; "AssertionError"; "AttributeError"; "BaseException";
     "BaseExceptionGroup"; "BlockingIOError"; "BrokenPipeError";
     "BufferError"; "BytesWarning"; "ChildProcessError";
     "ConnectionAbortedError"; "ConnectionError"; "ConnectionRefusedError";
     "ConnectionResetError"; "DeprecationWarning"; "EOFError";
     "EncodingWarning"; "EnvironmentError"; "Exception"; "ExceptionGroup";
     "FileExistsError"; "FileNotFoundError"; "FloatingPointError";
     "FutureWarning"; "GeneratorExit"; "IOError"; "ImportError";
     "ImportWarning"; "IndentationError"; "IndexError"; "InterruptedError";
     "IsADirectoryError"; "KeyError"; "KeyboardInterrupt"; "LookupError";
     "MemoryError"; "ModuleNotFoundError"; "NameError";
     "NotADirectoryError"; "NotImplementedError"; "OSError";
     "OverflowError"; "PendingDeprecationWarning"; "PermissionError";
     "ProcessLookupError"; "RecursionError"; "ReferenceError";
     "ResourceWarning"; "RuntimeError"; "RuntimeWarning";
     "StopAsyncIteration"; "StopIteration"; "SyntaxError"; "SyntaxWarning";
     "SystemError"; "SystemExit"; "TabError"; "TimeoutError"; "TypeError";
     "UnboundLocalError"; "UnicodeDecodeError"; "UnicodeEncodeError";
     "UnicodeError"; "UnicodeTranslateError"; "UnicodeWarning";
     "UserWarning"; "ValueError"; "Warning"; "ZeroDivisionError"]%string.

Fixpoint assoc (k : pystr) (l : list (pystr * object)) : option object :=
  match l with
  | [] => None
  | (k', o) :: l' => if bool_decide (k' = k) then Some o else assoc k l'
  end.

(** Reading a name inside a function: its local variables, then the module,
    then the builtins; [NameError] when no scope binds it. *)
Definition load_name {M : Type} (locals : list (pystr * object)) (n : pystr)
  : Py M object :=
  match assoc n locals with
  | Some o => mret o
  | None =>
      if bool_decide (n ∈ module_globals ++ builtin_names)
      then mret OOther
      else raise (NameError n)
  end.

(** [dict(pairs)]: every element must have exactly two items, else
    [ValueError]; a later key replaces an earlier one. *)
Fixpoint dict_update (d : gmap (list N) (list N)) (pairs : list (list pystr))
  : option (gmap (list N) (list N)) :=
  match pairs with
  | [] => Some d
  | [k; v] :: rest => dict_update (<[k := v]> d) rest
  | _ :: _ => None
  end.

Definition dict {M : Type} (pairs : list (list pystr))
  : Py M (gmap (list N) (list N)) :=
  match dict_update ∅ pairs with
  | Some d => mret d
  | None => raise ValueError
  end.

(** [d[k]]: every key of [d] is a [str], so any other object is missing. *)
Definition getitem {M : Type} (d : gmap (list N) (list N)) (k : object)
  : Py M pystr :=
  match k with
  | OStr s =>
      match d !! s with
      | Some v => mret v
      | None => raise (KeyError k)
      end
  | OOther => raise (KeyError k)
  end.

(** [command_output.decode()] *)
Definition decode {M : Type} (bs : bytes) : Py M pystr :=
  match utf8_decode bs with
  | Some s => mret s
  | None => raise UnicodeDecodeError
  end.

(** ** The connection controller: class [VpnConnection] *)

Definition DEFAULT_SERVER_LIST_URL : pystr :=
  py "https://privatevpn.com/serverlist".
Definition DEFAULT_CONNECTION_NAME : pystr := py "PrivateVPN".
Definition DEFAULT_RESTART_DELAY_SECONDS : Z := 1.

Record VpnConnection : Type := {
  name : pystr;
  _restart_delay_seconds : Z
}.

(** [VpnConnection(name)] with the default delay. *)
Definition new_VpnConnection (nm : pystr) : VpnConnection :=
  {| name := nm; _restart_delay_seconds := DEFAULT_RESTART_DELAY_SECONDS |}.

(** The argument vectors of the five uses of the tool. *)
Definition argv_state (nm : pystr) : list pystr :=
  [py "nmcli"; py "-g"; py "GENERAL.STATE"; py "con"; py "show"; nm].
Definition argv_up (nm : pystr) : list pystr :=
  [py "nmcli"; py "con"; py "up"; nm].
Definition argv_down (nm : pystr) : list pystr :=
  [py "nmcli"; py "con"; py "down"; nm].
Definition argv_mod (nm key value : pystr) : list pystr :=
  [py "nmcli"; py "con"; py "mod"; nm; py "+vpn.data"; key ++ py "=" ++ value].
Definition argv_data (nm : pystr) : list pystr :=
  [py "nmcli"; py "-g"; py "vpn.data"; py "con"; py "show"; nm].

Section Controller.
Context {M : Type} {T : ExternalTool M}.

Definition is_connected (self : VpnConnection) : Py M bool :=
  command_output ← check_output (argv_state (name self));
  mret (0 <? length command_output)%nat.

Definition connect (self : VpnConnection) (only_if_disconnected : bool)
  : Py M unit :=
  go ← (if negb only_if_disconnected then mret true
        else connected ← is_connected self; mret (negb connected));
  if go : bool then check_output (argv_up (name self)) ;; mret tt
  else mret tt.

Definition disconnect (self : VpnConnection) (only_if_connected : bool)
  : Py M unit :=
  go ← (if negb only_if_connected then mret true
        else is_connected self);
  if go : bool then check_output (argv_down (name self)) ;; mret tt
  else mret tt.

Definition restart (self : VpnConnection) : Py M unit :=
  connected ← is_connected self;
  (if connected : bool
   then disconnect self false ;; sleep (_restart_delay_seconds self)
   else mret tt) ;;
  connect self false.

Definition _get_data (self : VpnConnection)
  : Py M (gmap (list N) (list N)) :=
  command_output ← check_output (argv_data (name self));
  text ← decode command_output;
  dict (List.map (fun entry => split entry (py " = "))
          (split (strip text) (py ", "))).

(** The subscript of [get_data_item] is the name [item_key]; the
    parameter is called [key]. *)
Definition get_data_item (self : VpnConnection) (key : pystr)
  : Py M pystr :=
  d ← _get_data self;
  item_key ← load_name [(py "self", OOther); (py "key", OStr key)]
               (py "item_key");
  getitem d item_key.

Definition set_data_item (self : VpnConnection) (key value : pystr)
  : Py M unit :=
  check_output (argv_mod (name self) key value) ;; mret tt.

Definition get_remote_address (self : VpnConnection) : Py M pystr :=
  get_data_item self (py "remote").

Definition set_remote_address (self : VpnConnection) (address : pystr)
  : Py M unit :=
  set_data_item self (py "remote") address.
End Controller.

(** ** The server directory *)

(** The exceptions a page of unexpected structure ends in. *)
Definition parse_errors : list exn := [AttributeError; IndexError; TypeError].

(** What [server["location"]] can hold: the stripped text, or, when the
    method name [strip] is looked up on a tag, the result of calling the
    child tag of that name (see [call_strip]). *)
Inductive pyval : Type :=
| VStr (s : pystr)
| VResultSet (tags : list node).

(** The dictionary with the keys ["location"] and ["address"]. *)
Record server : Type := {
  location : pyval;
  address : pystr
}.

(** [l[i]] on a list, negative indices counting from the end. *)
Definition subscript {M A : Type} (l : list A) (i : Z) : Py M A :=
  let j := if (i <? 0)%Z then (i + Z.of_nat (length l))%Z else i in
  if (j <? 0)%Z then raise IndexError
  else match l !! Z.to_nat j with
       | Some a => mret a
       | None => raise IndexError
       end.

(** [child.strip()].  On a text node this is [str.strip].  A tag has no such
    method: [bs4] reads an unknown attribute as [find("strip")], so the call
    is a call of [None] ([TypeError]) unless a tag of that name sits below,
    and calling a tag is its [find_all()], all tags below it. *)
Definition call_strip {M : Type} (child : node) : Py M pyval :=
  match child with
  | NavigableString s => mret (VStr (strip s))
  | Tag _ _ =>
      match find child (py "strip") with
      | None => raise TypeError
      | Some t => mret (VResultSet (List.filter is_tag (descendants t)))
      end
  end.

(** [x.find(...)], [x.find_all(...)] or [x.string.strip()] where [x] may be
    [None]. *)
Definition not_None {M A : Type} (x : option A) : Py M A :=
  match x with
  | Some a => mret a
  | None => raise AttributeError
  end.

Definition len (v : pyval) : nat :=
  match v with
  | VStr s => length s
  | VResultSet l => length l
  end.

(** [v.ljust(width)]: a result set has no such attribute. *)
Definition call_ljust {M : Type} (v : pyval) (width : nat) : Py M pystr :=
  match v with
  | VStr s => mret (ljust s width)
  | VResultSet _ => raise AttributeError
  end.

(** [max(...)] of a sequence of lengths. *)
Definition max_of {M : Type} (l : list nat) : Py M nat :=
  match l with
  | [] => raise ValueError
  | x :: r => mret (foldl Nat.max x r)
  end.

Definition TAB : pystr := [9%N].

(** The [i]-th tab-separated field of a printed line. *)
Definition column (i : nat) (line : pystr) : option pystr :=
  split line TAB !! i.

Section Fetcher.
Context {M : Type} {T : ExternalTool M}.

(** The body of the loop over the rows. *)
Definition row (tr : node) : Py M server :=
  let tds := find_all tr (py "td") in
  td0 ← subscript tds 0;
  child ← subscript (children td0) 2;
  loc ← call_strip child;
  td1 ← subscript tds 1;
  s ← not_None (string_of td1);
  mret {| location := loc; address := strip s |}.

Fixpoint rows (trs : list node) (servers : list server)
  : Py M (list server) :=
  match trs with
  | [] => mret servers
  | tr :: rest => sv ← row tr; rows rest (servers ++ [sv])
  end.

Definition get_servers_list (server_list_url : pystr)
  : Py M (list server) :=
  soup ← fetch_soup server_list_url;
  let table := find soup (py "table") in
  table ← not_None table;
  let tbody := find table (py "tbody") in
  tbody ← not_None tbody;
  let trs := find_all tbody (py "tr") in
  rows trs [].


Fixpoint print_rows (i : nat) (servers : list server)
  (first_column_width second_column_width : nat) : Py M unit :=
  match servers with
  | [] => mret tt
  | sv :: rest =>
      loc ← call_ljust (location sv) second_column_width;
      print (ljust (str_of_nat (i + 1)) first_column_width ++ TAB
             ++ loc ++ TAB ++ address sv) ;;
      print_rows (S i) rest first_column_width second_column_width
  end.

Definition print_servers_list (servers : list server) : Py M unit :=
  let first_column_width := length (py "Number") in
  second_column_width ← max_of (List.map (fun sv => len (location sv)) servers);
  print (ljust (py "Number") first_column_width ++ TAB
         ++ ljust (py "Location") second_column_width ++ TAB
         ++ py "Address") ;;
  print_rows 0 servers first_column_width second_column_width.
End Fetcher.

(** ** Reading the choice: [int] and [get_chosen_server] *)

(** The decimal digits of the Unicode database of the running interpreter
    ([Py_UNICODE_TODECIMAL]).  The table grows with every Unicode version;
    what every version agrees on is the ASCII part. *)
Class UnicodeData : Type := {
  to_decimal : N -> option Z;
  to_decimal_ascii c :
    (c < 128)%N ->
    to_decimal c
    = if ((48 <=? c) && (c <=? 57))%N then Some (Z.of_N c - 48)%Z else None;
  to_decimal_digit c d : to_decimal c = Some d -> (0 <= d <= 9)%Z
}.

(** White space for [int]: the ASCII characters of [Py_ISSPACE], and the
    white space beyond ASCII. *)
Definition int_space (c : N) : bool :=
  (((9 <=? c) && (c <=? 13)) || (c =? 32) || ((127 <=? c) && isspace c))%N.

Fixpoint int_lstrip (s : pystr) : pystr :=
  match s with
  | c :: s' => if int_space c then int_lstrip s' else s
  | [] => []
  end.

Definition UNDERSCORE : N := 95.

Section Int.
Context {U : UnicodeData}.

(** Digits with single underscores between them. *)
Fixpoint digits_go (s : pystr) (acc : Z) (after_underscore : bool)
  : option Z :=
  match s with
  | [] => if after_underscore then None else Some acc
  | c :: r =>
      if (c =? UNDERSCORE)%N
      then if after_underscore then None else digits_go r acc true
      else match to_decimal c with
           | Some d => digits_go r (10 * acc + d)%Z false
           | None => None
           end
  end.

Definition digits (s : pystr) : option Z :=
  match s with
  | [] => None
  | c :: _ => if (c =? UNDERSCORE)%N then None else digits_go s 0%Z false
  end.

(** [int(s)] in base ten; [None] stands for [ValueError]. *)
Definition int_of_str (s : pystr) : option Z :=
  let t := rev (int_lstrip (rev (int_lstrip s))) in
  match t with
  | 43%N :: r => digits r
  | 45%N :: r => Z.opp <$> digits r
  | _ => digits t
  end.
End Int.

(** [except ValueError] also catches its subclasses. *)
Definition is_ValueError (e : exn) : bool :=
  match e with
  | ValueError | UnicodeDecodeError => true
  | _ => false
  end.

Definition try_except {M A : Type} (body : Py M A) (handled : exn -> bool)
  (handler : exn -> Py M A) : Py M A :=
  fun w =>
    match body w with
    | (w', Raise e) => if handled e then handler e w' else (w', Raise e)
    | r => r
    end.

Definition PROMPT : pystr := py "Choose server number to connect: ".
Definition INVALID : pystr := py "Invalid server number".

Section Selection.
Context {M : Type} {T : ExternalTool M} {U : UnicodeData}.

Definition int (s : pystr) : Py M Z :=
  match int_of_str s with
  | Some n => mret n
  | None => raise ValueError
  end.

(** The [try] block of the loop. *)
Definition ask (servers : list server) : Py M Z :=
  line ← input PROMPT;
  n ← int line;
  let server_number := (n - 1)%Z in
  if negb ((0 <=? server_number)%Z
           && (server_number <? Z.of_nat (length servers))%Z)
  then raise ValueError
  else mret server_number.

(** One turn of [while again] per unit of [fuel]; [None] is [again] still
    being true. *)
Fixpoint choose (fuel : nat) (servers : list server) : Py M server :=
  match fuel with
  | O => raise EOFError
  | S fuel' =>
      r ← try_except (Some <$> ask servers) is_ValueError
            (fun _ => print INVALID ;; mret None);
      match r with
      | Some server_number => subscript servers server_number
      | None => choose fuel' servers
      end
  end.

(** Every turn reads a line, and reading past the last line raises
    [EOFError]: one turn more than there are lines is enough. *)
Definition get_chosen_server (servers : list server) : Py M server :=
  fun w => choose (S (length (stdin w))) servers w.

(** A line is refused when it is no integer, or the integer is not the
    number of a server. *)
Definition refused (servers : list server) (line : pystr) : Prop :=
  int_of_str line = None
  \/ exists n, int_of_str line = Some n
               /\ ~ (0 <= n - 1 < Z.of_nat (length servers))%Z.
End Selection.

(** ** The command: [main] *)

(** The namespace [parse_arguments()] returns. *)
Record Namespace : Type := {
  arg_connection : pystr;
  arg_disconnect : bool;
  arg_url : option pystr;
  arg_list : bool;
  arg_verbose : bool;
  arg_server_list_url : pystr
}.

Definition is_CalledProcessError (e : exn) : bool :=
  match e with
  | CalledProcessError _ => true
  | _ => false
  end.

Section Main.
Context {M : Type} {T : ExternalTool M} {U : UnicodeData}.

Definition when (b : bool) (c : Py M unit) : Py M unit :=
  if b then c else mret tt.

(** The [try] block of [main], from the namespace [parse_arguments()] has
    returned.  (On a command line it rejects, [argparse] ends the process
    itself, with status 2, and nothing of what follows happens.) *)
Definition main_try (arguments : Namespace) : Py M Z :=
  let connection := new_VpnConnection (arg_connection arguments) in
  if arg_disconnect arguments then
    when (arg_verbose arguments)
      (print (py "Turning off " ++ arg_connection arguments ++ py "...")) ;;
    disconnect connection true ;;
    mret 0%Z
  else if arg_list arguments then
    when (arg_verbose arguments) (print (py "Fetching servers list...")) ;;
    servers ← get_servers_list (arg_server_list_url arguments);
    print_servers_list servers ;;
    mret 0%Z
  else
    chosen ←
      match arg_url arguments with
      | Some url => mret (arg_verbose arguments, url)
      | None =>
          print (py "Fetching servers list...") ;;
          servers ← get_servers_list (arg_server_list_url arguments);
          print_servers_list servers ;;
          sv ← get_chosen_server servers;
          mret (true, address sv)
      end;
    let verbose := chosen.1 in
    let server_address := chosen.2 in
    when verbose
      (print (py "Connecting " ++ arg_connection arguments ++ py " to "
              ++ server_address ++ py "...")) ;;
    set_remote_address connection server_address ;;
    restart connection ;;
    when verbose (print (py "Connected")) ;;
    mret 0%Z.

Definition main (arguments : Namespace) : Py M Z :=
  try_except (main_try arguments) is_CalledProcessError
    (fun e =>
       match e with
       | CalledProcessError returncode => mret returncode
       | _ => raise e
       end).

(** [sys.exit(main())]: the exit status the parent process sees, the low
    eight bits of the value; an exception nobody caught ends the
    interpreter with status 1. *)
Definition script (arguments : Namespace) (w : World M) : World M * Z :=
  match main arguments w with
  | (w', Ok status) => (w', Z.land status 255)
  | (w', Raise _) => (w', 1%Z)
  end.
End Main.

(** ** Failures of the tool in a log *)

(** The non-zero exit codes among the events, in order. *)
Definition failures (evs : list event) : list Z :=
  flat_map
    (fun e =>
       match e with
       | EvRun _ rc => if (rc =? 0)%Z then [] else [rc]
       | _ => []
       end)
    evs.

(** A computation accounts for the tool when it only ever adds to the log,
    and what it adds holds a failed run exactly when it raises
    [CalledProcessError]: that one run, with that exit code. *)
Definition accounts {M A : Type} (c : Py M A) : Prop :=
  forall w, exists evs,
    log (c w).1 = log w ++ evs
    /\ failures evs
       = match (c w).2 with
         | Raise (CalledProcessError rc) => [rc]
         | _ => []
         end.

(** ** A reference host

    The connection manager is not part of the script.  For concrete runs we
    use a manager with one VPN profile that does what the specification
    expects of it: it remembers whether the profile is active, stores the
    key/value pairs written to it, and prints them as
    ["key1 = value1, key2 = value2"]. *)
Module NetworkManager.

Record state : Type := {
  profile : pystr;
  active : bool;
  vpn_data : list (pystr * pystr)
}.

Fixpoint put (k v : pystr) (l : list (pystr * pystr))
  : list (pystr * pystr) :=
  match l with
  | [] => [(k, v)]
  | (k', v') :: l' =>
      if bool_decide (k' = k) then (k, v) :: l' else (k', v') :: put k v l'
  end.

Fixpoint join (sep : pystr) (l : list pystr) : pystr :=
  match l with
  | [] => []
  | [x] => x
  | x :: r => x ++ sep ++ join sep r
  end.

Definition serialize (l : list (pystr * pystr)) : pystr :=
  join (py ", ") (List.map (fun kv => kv.1 ++ py " = " ++ kv.2) l).

(** Cut ["key=value"] at the first ["="]. *)
Fixpoint cut (s : pystr) (k : pystr) : pystr * pystr :=
  match s with
  | [] => (rev k, [])
  | c :: r => if (c =? 61)%N then (rev k, r) else cut r (c :: k)
  end.

Definition NEWLINE : pystr := [10%N].
Definition UNKNOWN_CONNECTION : Z := 10.
Definition USAGE : Z := 2.

Definition known (nm : pystr) (m : state)
  (r : state * (Z * bytes)) : state * (Z * bytes) :=
  if bool_decide (nm = profile m) then r else (m, (UNKNOWN_CONNECTION, [])).

Definition run (argv : list pystr) (m : state) : state * (Z * bytes) :=
  match argv with
  | [_; _; _; nm; _; last] =>
      if bool_decide (argv = argv_state last) then
        known last m
          (m, (0%Z, if active m then utf8_encode (py "activated" ++ NEWLINE)
                    else []))
      else if bool_decide (argv = argv_data last) then
        known last m
          (m, (0%Z, utf8_encode (serialize (vpn_data m) ++ NEWLINE)))
      else
        let kv := cut last [] in
        if bool_decide (argv = argv_mod nm kv.1 kv.2) then
          known nm m
            ({| profile := profile m; active := active m;
                vpn_data := put kv.1 kv.2 (vpn_data m) |}, (0%Z, []))
        else (m, (USAGE, []))
  | [_; _; _; nm] =>
      if bool_decide (argv = argv_up nm) then
        known nm m
          ({| profile := profile m; active := true;
              vpn_data := vpn_data m |}, (0%Z, []))
      else if bool_decide (argv = argv_down nm) then
        known nm m
          (if active m
           then ({| profile := profile m; active := false;
                    vpn_data := vpn_data m |}, (0%Z, []))
           else (m, (UNKNOWN_CONNECTION, [])))
      else (m, (USAGE, []))
  | _ => (m, (USAGE, []))
  end.

#[export] Instance tool : ExternalTool state := run.

End NetworkManager.

(** ** A host that may be looked at and not changed

    The same manager, for a user who is allowed to query the profile and is
    refused everything else: the two queries answer as above, every other
    command leaves the host as it is and exits with [REFUSED]. *)
Module ReadOnly.

Record state : Type := { seen : NetworkManager.state }.

Definition REFUSED : Z := 4.

Definition run (argv : list pystr) (m : state) : state * (Z * bytes) :=
  match argv with
  | [_; _; _; _; _; last] =>
      if bool_decide (argv = argv_state last)
         || bool_decide (argv = argv_data last)
      then ({| seen := (NetworkManager.run argv (seen m)).1 |},
            (NetworkManager.run argv (seen m)).2)
      else (m, (REFUSED, []))
  | _ => (m, (REFUSED, []))
  end.

#[global] Instance tool : ExternalTool state := run.

End ReadOnly.

(** The digit table with the ASCII digits only. *)
Definition ascii_decimal (c : N) : option Z :=
  if ((48 <=? c) && (c <=? 57))%N then Some (Z.of_N c - 48)%Z else None.

#[export] Program Instance ascii_digits : UnicodeData :=
  {| to_decimal := ascii_decimal |}.
Next Obligation. reflexivity. Qed.
Next Obligation.
  intros c d. unfold ascii_decimal.
  destruct (N.leb_spec 48 c), (N.leb_spec c 57); simpl; intros [= <-]; lia.
Qed.

(** ** Concrete inputs *)

Module Examples.
Import NetworkManager.

Definition FRANCE_FLAG : pystr := [127467%N; 127479%N].
Definition GERMAN_FLAG : pystr := [127465%N; 127466%N].

Definition example_row (flag place addr : pystr) : node :=
  Tag (py "tr")
    [Tag (py "td")
       [NavigableString flag; Tag (py "br") [];
        NavigableString (py " " ++ place)];
     Tag (py "td") [NavigableString addr]].

(** The two-row page of the specification. *)
Definition example_page : node :=
  Tag (py "[document]")
    [Tag (py "html")
       [Tag (py "body")
          [Tag (py "h1") [NavigableString (py "Servers")];
           Tag (py "table")
             [Tag (py "tbody")
                [example_row FRANCE_FLAG (py "France") (py "fr1.example.com");
                 example_row GERMAN_FLAG (py "Germany") (py "de1.example.com")]]]]].

Definition france : server :=
  {| location := VStr (py "France"); address := py "fr1.example.com" |}.
Definition germany : server :=
  {| location := VStr (py "Germany"); address := py "de1.example.com" |}.


(** A page without a table, and one whose second row has a single
    cell. *)
Definition no_table_page : node :=
  Tag (py "[document]")
    [Tag (py "p") [NavigableString (py "Service unavailable")]].

Definition short_row_page : node :=
  Tag (py "[document]")
    [Tag (py "table")
       [Tag (py "tbody")
          [example_row FRANCE_FLAG (py "France") (py "fr1.example.com");
           Tag (py "tr")
             [Tag (py "td")
                [NavigableString GERMAN_FLAG; Tag (py "br") [];
                 NavigableString (py " Germany")]]]]].


(** A page whose one row has a single cell, and that cell holds a [td] of
    its own after the place name. *)
Definition nested_cell_page : node :=
  Tag (py "[document]")
    [Tag (py "table")
       [Tag (py "tbody")
          [Tag (py "tr")
             [Tag (py "td")
                [NavigableString FRANCE_FLAG; Tag (py "br") [];
                 NavigableString (py " France");
                 Tag (py "td") [NavigableString (py "fr1.example.com")]]]]]].

Definition URL : pystr := py "https://vpn.example.com/serverlist".

Definition pages (url : pystr) : option node :=
  if bool_decide (url = URL) then Some example_page else None.

Definition host_up : state :=
  {| profile := DEFAULT_CONNECTION_NAME; active := true;
     vpn_data := [(py "remote", py "10.0.0.1"); (py "port", py "1194")] |}.
Definition host_down : state :=
  {| profile := DEFAULT_CONNECTION_NAME; active := false; vpn_data := [] |}.

Definition world_up (lines : list pystr) : World state :=
  mkWorld host_up lines pages [].
Definition world_down (lines : list pystr) : World state :=
  mkWorld host_down lines pages [].

Definition world_with (page : node) : World state :=
  mkWorld host_up [] (fun _ => Some page) [].


(** Turn off a profile the host does not know. *)
Definition turn_off_other : Namespace :=
  {| arg_connection := py "Other"; arg_disconnect := true; arg_url := None;
     arg_list := false; arg_verbose := false;
     arg_server_list_url := DEFAULT_SERVER_LIST_URL |}.

Definition vpn : VpnConnection := new_VpnConnection DEFAULT_CONNECTION_NAME.

(** The same profile with another delay. *)
Definition vpn_after (delay : Z) : VpnConnection :=
  {| name := DEFAULT_CONNECTION_NAME; _restart_delay_seconds := delay |}.
End Examples.

(** ** More concrete inputs *)

Module Runs.
Import NetworkManager Examples.

(** Only list the servers of the example page. *)
Definition list_only : Namespace :=
  {| arg_connection := DEFAULT_CONNECTION_NAME; arg_disconnect := false;
     arg_url := None; arg_list := true; arg_verbose := true;
     arg_server_list_url := URL |}.

(** Connect to an address given on the command line. *)
Definition connect_to (address : pystr) : Namespace :=
  {| arg_connection := DEFAULT_CONNECTION_NAME; arg_disconnect := false;
     arg_url := Some address; arg_list := false; arg_verbose := false;
     arg_server_list_url := URL |}.

(** Fetch the example page and ask. *)
Definition ask_user : Namespace :=
  {| arg_connection := DEFAULT_CONNECTION_NAME; arg_disconnect := false;
     arg_url := None; arg_list := false; arg_verbose := false;
     arg_server_list_url := URL |}.

(** A profile the host refuses to change: its name is not the host's. *)
Definition connect_other (address : pystr) : Namespace :=
  {| arg_connection := py "Other"; arg_disconnect := false;
     arg_url := Some address; arg_list := false; arg_verbose := true;
     arg_server_list_url := URL |}.

(** A host whose one value holds the separator of key and value. *)
Definition host_odd : state :=
  {| profile := DEFAULT_CONNECTION_NAME; active := false;
     vpn_data := [(py "remote", py "a = b")] |}.

Definition world_odd : World state := mkWorld host_odd [] pages [].

Definition example_rows : list (pystr * pystr) :=
  [(py "France", py "fr1.example.com"); (py "Germany", py "de1.example.com")].
End Runs.

(** ** Notions for the properties of whole runs *)

(** Is the event a run of the external tool? *)
Definition is_run (e : event) : bool :=
  match e with
  | EvRun _ _ => true
  | _ => false
  end.

(** The events that need neither the network nor the user: runs of the tool,
    sleeping, printing. *)
Definition is_unattended (e : event) : bool :=
  match e with
  | EvRun _ _ | EvSleep _ | EvWrite _ => true
  | EvPrompt _ | EvGet _ => false
  end.

(** The events of console traffic: prompts and printed lines. *)
Definition is_console (e : event) : bool :=
  match e with
  | EvWrite _ | EvPrompt _ => true
  | _ => false
  end.

(** ** Notions for the properties of the page *)

(** The cells of a table row as the specification counts them: the [td]
    elements that are children of the row. *)
Definition cells (tr : node) : list node :=
  List.filter (has_name (py "td")) (children tr).

(** The width of the field under "Location" in a printed line. *)
Definition location_width (e : event) : option nat :=
  match e with
  | EvWrite line => length <$> column 1 line
  | _ => None
  end.

(** ** Notions for the properties of the data dictionary *)

(** A key or value without white space, and not empty. *)
Definition clean (s : pystr) : Prop :=
  s <> [] /\ Forall (fun c => isspace c = false) s.

(** No occurrence of [sep] starts inside [x] when [x] is followed by
    [tail]. *)
Fixpoint free (sep x tail : pystr) : Prop :=
  match x with
  | [] => True
  | c :: x' => startswith (c :: x' ++ tail) sep = false /\ free sep x' tail
  end.

(** A text that begins and ends with a character that is not white
    space. *)
Definition ends_ok (s : pystr) : Prop :=
  (exists c s', s = c :: s' /\ isspace c = false)
  /\ (exists d s', rev s = d :: s' /\ isspace d = false).

Definition COMMA : N := 44.

(** * Properties *)

(** ** Running computations *)

Section Steps.
Context {M : Type} {T : ExternalTool M}.

Lemma bind_ok {A B} (c : Py M A) (f : A -> Py M B) w w' a :
  c w = (w', Ok a) -> (c ≫= f) w = f a w'.
Proof. intros H. unfold mbind, Py_bind. now rewrite H. Qed.

Lemma bind_raise {A B} (c : Py M A) (f : A -> Py M B) w w' e :
  c w = (w', Raise e) -> (c ≫= f) w = (w', Raise e).
Proof. intros H. unfold mbind, Py_bind. now rewrite H. Qed.

Lemma check_output_run argv w h rc out :
  exec argv (host w) = (h, (rc, out)) ->
  check_output argv w
  = (mkWorld h (stdin w) (web w) (log w ++ [EvRun argv rc]),
     if (rc =? 0)%Z then Ok out else Raise (CalledProcessError rc)).
Proof.
  intros H. unfold check_output. rewrite H. now destruct (rc =? 0)%Z.
Qed.

Lemma is_connected_run self w h rc out :
  exec (argv_state (name self)) (host w) = (h, (rc, out)) ->
  is_connected self w
  = (mkWorld h (stdin w) (web w)
       (log w ++ [EvRun (argv_state (name self)) rc]),
     if (rc =? 0)%Z then Ok (0 <? length out)%nat
     else Raise (CalledProcessError rc)).
Proof.
  intros H. unfold is_connected, mbind, Py_bind.
  rewrite (check_output_run _ _ _ _ _ H). now destruct (rc =? 0)%Z.
Qed.
End Steps.

(** C3: for a connection whose state query succeeds, [is_connected] returns
    a boolean that is true exactly when the output of the query is not
    empty. *)
Theorem is_connected_iff_state_nonempty
  {M : Type} {T : ExternalTool M} (self : VpnConnection) (w : World M)
  (h : M) (state_output : bytes) :
  exec (argv_state (name self)) (host w) = (h, (0%Z, state_output)) ->
  exists b : bool,
    (is_connected self w).2 = Ok b /\ (b = true <-> state_output <> []).
Proof.
  intros H. rewrite (is_connected_run _ _ _ _ _ H). simpl.
  exists (0 <? length state_output)%nat. split; [reflexivity|].
  destruct state_output as [|b0 r]; split; intros E; try congruence.
  - discriminate E.
  - reflexivity.
Qed.

Section Restart.
Context {M : Type} {T : ExternalTool M}.

Lemma connect_run self w h rc out :
  exec (argv_up (name self)) (host w) = (h, (rc, out)) ->
  connect self false w
  = (mkWorld h (stdin w) (web w)
       (log w ++ [EvRun (argv_up (name self)) rc]),
     if (rc =? 0)%Z then Ok tt else Raise (CalledProcessError rc)).
Proof.
  intros H. unfold connect, mbind, Py_bind. simpl.
  rewrite (check_output_run _ _ _ _ _ H). now destruct (rc =? 0)%Z.
Qed.

Lemma disconnect_run self w h rc out :
  exec (argv_down (name self)) (host w) = (h, (rc, out)) ->
  disconnect self false w
  = (mkWorld h (stdin w) (web w)
       (log w ++ [EvRun (argv_down (name self)) rc]),
     if (rc =? 0)%Z then Ok tt else Raise (CalledProcessError rc)).
Proof.
  intros H. unfold disconnect, mbind, Py_bind. simpl.
  rewrite (check_output_run _ _ _ _ _ H). now destruct (rc =? 0)%Z.
Qed.

Lemma sleep_run secs (w : World M) :
  (0 <= secs <= 9223372036)%Z ->
  sleep secs w = (logged w [EvSleep secs], Ok tt).
Proof.
  intros H. unfold sleep. cbv zeta.
  destruct (Z.ltb_spec (secs * 1000000000) (- 2 ^ 63)); [lia|].
  destruct (Z.ltb_spec (2 ^ 63 - 1) (secs * 1000000000)); [lia|].
  destruct (Z.ltb_spec (secs * 1000000000) 0); [lia|reflexivity].
Qed.


End Restart.


(** ** The data dictionary *)

Section DataItem.
Context {M : Type} {T : ExternalTool M}.

(** No scope binds [item_key]. *)
Lemma load_item_key (key : pystr) (w : World M) :
  load_name [(py "self", OOther); (py "key", OStr key)] (py "item_key") w
  = (w, Raise (NameError (py "item_key"))).
Proof. reflexivity. Qed.

Lemma get_data_item_cases self key (w : World M) :
  get_data_item self key w
  = match _get_data self w with
    | (w', Ok _) => (w', Raise (NameError (py "item_key")))
    | (w', Raise e) => (w', Raise e)
    end.
Proof.
  unfold get_data_item, mbind at 1, Py_bind at 1.
  destruct (_get_data self w) as [w' [d|e]]; [|reflexivity].
  unfold mbind, Py_bind. now rewrite load_item_key.
Qed.
End DataItem.

(** C10 (as amended): no call of [get_data_item], hence none of
    [get_remote_address], returns a value; whenever the data query succeeds
    and its output parses into a dictionary, whatever that dictionary holds,
    the call raises [NameError] for [item_key]. *)
Theorem get_data_item_never_returns
  {M : Type} {T : ExternalTool M} (self : VpnConnection) (key : pystr)
  (w : World M) :
  (forall v, (get_data_item self key w).2 <> Ok v)
  /\ (forall v, (get_remote_address self w).2 <> Ok v)
  /\ (forall w' d,
        _get_data self w = (w', Ok d) ->
        get_data_item self key w = (w', Raise (NameError (py "item_key")))
        /\ get_remote_address self w
           = (w', Raise (NameError (py "item_key")))).
Proof.
  unfold get_remote_address. rewrite !get_data_item_cases.
  destruct (_get_data self w) as [w1 [d1|e1]]; cbn.
  - split; [discriminate|]. split; [discriminate|].
    intros w2 d2 [= <- _]. split; reflexivity.
  - split; [discriminate|]. split; discriminate.
Qed.

(** C6: on an empty list of servers [print_servers_list] raises
    [ValueError] (the [max] of nothing) and has printed nothing, not even
    the header. *)
Theorem print_servers_list_empty
  {M : Type} {T : ExternalTool M} (w : World M) :
  print_servers_list [] w = (w, Raise ValueError).
Proof. reflexivity. Qed.

Lemma logged_logged {M : Type} (w : World M) (evs evs' : list event) :
  logged (logged w evs) evs' = logged w (evs ++ evs').
Proof. unfold logged. cbn. now rewrite <- app_assoc. Qed.

(** ** Runs on the reference host *)

Import NetworkManager Examples.

(** The profile is known and active: its state query succeeds with a
    non-empty answer. *)
Lemma is_connected_iff_state_nonempty_witness :
  exists b : bool,
    (is_connected vpn (world_up [])).2 = Ok b
    /\ (b = true <-> utf8_encode (py "activated" ++ NEWLINE) <> []).
Proof.
  apply (is_connected_iff_state_nonempty vpn (world_up []) host_up).
  reflexivity.
Defined.



(** The delay is not checked before [time.sleep] is: with a negative delay,
    or one of 9223372037 seconds, the connection is taken down and stays
    down. *)
Example restart_refused_delay :
  (restart (vpn_after (-1)) (world_up [])).2 = Raise ValueError
  /\ (restart (vpn_after 9223372037) (world_up [])).2 = Raise OverflowError
  /\ (restart (vpn_after 9223372036) (world_up [])).2 = Ok tt
  /\ active (host (restart (vpn_after (-1)) (world_up [])).1) = false.
Proof. vm_compute. repeat split; reflexivity. Qed.

(** With two entries in the dictionary, asking for one of them. *)
Lemma get_data_item_never_returns_witness :
  get_data_item vpn (py "port") (world_up [])
  = (logged (world_up []) [EvRun (argv_data DEFAULT_CONNECTION_NAME) 0],
     Raise (NameError (py "item_key"))).
Proof.
  apply (proj2 (proj2 (get_data_item_never_returns vpn (py "port")
                         (world_up [])))
           _ (list_to_map [(py "remote", py "10.0.0.1");
                           (py "port", py "1194")])).
  vm_compute. reflexivity.
Defined.

(** The data the failing lookup had at hand: the requested key is there. *)
Example held_port :
  (d ← _get_data vpn; mret (d !! py "port")) (world_up [])
  = (logged (world_up []) [EvRun (argv_data DEFAULT_CONNECTION_NAME) 0],
     Ok (Some (py "1194"))).
Proof. vm_compute. reflexivity. Qed.

(** C10, as stated, fails where the profile has no data: the query prints an
    empty line, [dict] is given one entry of one item and raises
    [ValueError] before the name [item_key] is ever read.  It fails as well
    where the host does not know the profile: the query itself raises
    [CalledProcessError]. *)
Lemma get_data_item_other_errors :
  (get_data_item vpn (py "remote") (world_down [])).2 = Raise ValueError
  /\ (get_data_item vpn (py "remote") (world_down [])).2
     <> Raise (NameError (py "item_key"))
  /\ (get_data_item (new_VpnConnection (py "Other")) (py "remote")
        (world_up [])).2
     = Raise (CalledProcessError UNKNOWN_CONNECTION).
Proof.
  split; [vm_compute; reflexivity|].
  split; [vm_compute; discriminate | vm_compute; reflexivity].
Qed.

(** The dictionary text of the specification. *)
Example parse_data_example :
  dict_update ∅
    (List.map (fun entry => split entry (py " = "))
       (split (strip (py "remote = 1.2.3.4, port = 1194")) (py ", ")))
  = Some (<[py "port" := py "1194"]> (<[py "remote" := py "1.2.3.4"]> ∅)).
Proof. vm_compute. reflexivity. Qed.

(** C1 fails on the code: whatever was written, [get_remote_address] returns
    nothing.  On the reference host, after [set_remote_address "1.2.3.4"]
    the host holds and prints the pair, [_get_data] parses it back, and
    [get_remote_address] still raises [NameError]. *)
Theorem set_then_get_remote_address_raises :
  (forall (M : Type) (T : ExternalTool M) (self : VpnConnection)
          (x : pystr) (w : World M) (v : pystr),
      ((set_remote_address self x ;; get_remote_address self) w).2 <> Ok v)
  /\ let w := (set_remote_address vpn (py "1.2.3.4") (world_down [])).1 in
     (set_remote_address vpn (py "1.2.3.4") (world_down [])).2 = Ok tt
     /\ vpn_data (host w) = [(py "remote", py "1.2.3.4")]
     /\ (d ← _get_data vpn; mret (d !! py "remote")) w
        = (logged w [EvRun (argv_data DEFAULT_CONNECTION_NAME) 0],
           Ok (Some (py "1.2.3.4")))
     /\ get_remote_address vpn w
        = (logged w [EvRun (argv_data DEFAULT_CONNECTION_NAME) 0],
           Raise (NameError (py "item_key"))).
Proof.
  split.
  - intros M T self x w v. unfold mbind, Py_bind.
    destruct (set_remote_address self x w) as [w1 [[]|e]]; [|discriminate].
    unfold get_remote_address. rewrite get_data_item_cases.
    destruct (_get_data self w1) as [w2 [d|e]]; discriminate.
  - vm_compute. repeat split; reflexivity.
Qed.

(** C5 (as amended): for the two records of the example the table is a
    header and two rows; the field under "Location" is [ljust(7)] of its
    text in all three, 7 being the length of "Germany".  That pads the two
    rows to width 7; the header text "Location" has 8 characters and is
    printed as it is, so the header field is 8 wide, one more than the
    rows. *)
Theorem print_servers_list_example
  {M : Type} {T : ExternalTool M} (w : World M) :
  let lines :=
    [py "Number" ++ TAB ++ py "Location" ++ TAB ++ py "Address";
     py "1     " ++ TAB ++ py "France " ++ TAB ++ py "fr1.example.com";
     py "2     " ++ TAB ++ py "Germany" ++ TAB ++ py "de1.example.com"] in
  print_servers_list [france; germany] w
  = (logged w (List.map EvWrite lines), Ok tt)
  /\ List.map (column 1) lines
     = [Some (ljust (py "Location") 7); Some (ljust (py "France") 7);
        Some (ljust (py "Germany") 7)]
  /\ List.map location_width (List.map EvWrite lines)
     = [Some 8; Some 7; Some 7]
  /\ ljust (py "Location") 7 = py "Location"
  /\ length (py "Germany") = 7
  /\ List.map (fun sv => len (location sv)) [france; germany] = [6; 7].
Proof.
  cbv zeta. split; [|vm_compute; auto 6].
  unfold print_servers_list.
  erewrite bind_ok by reflexivity.
  erewrite bind_ok by reflexivity.
  cbn [print_rows location address france germany].
  erewrite bind_ok by reflexivity.
  erewrite bind_ok by reflexivity.
  erewrite bind_ok by reflexivity.
  erewrite bind_ok by reflexivity.
  unfold mret, Py_ret. rewrite !logged_logged.
  do 2 f_equal.
Qed.

(** C5 as stated fails at the header: of the three lines printed for the
    example, the field under "Location" is 7 wide in the two rows and 8
    wide in the header, so it is not of width 7 in every row. *)
Lemma print_servers_list_header_wider :
  let printed := log (print_servers_list [france; germany] (world_up [])).1 in
  List.map location_width printed = [Some 8; Some 7; Some 7]
  /\ ~ Forall (fun e => location_width e = Some 7) printed.
Proof.
  cbv zeta.
  assert (E : List.map location_width
                (log (print_servers_list [france; germany] (world_up [])).1)
              = [Some 8; Some 7; Some 7]) by (vm_compute; reflexivity).
  split; [exact E|].
  intros H.
  apply (proj2 (List.Forall_map location_width (fun n => n = Some 7) _)) in H.
  rewrite E in H. inversion H as [|? ? H8 _]. discriminate H8.
Qed.

(** ** Accounting for the runs of the tool *)

Create HintDb accounts.

Section Accounting.
Context {M : Type} {T : ExternalTool M} {U : UnicodeData}.

Lemma accounts_ret {A} (a : A) : accounts (mret a : Py M A).
Proof. intros w. exists []. cbn. now rewrite app_nil_r. Qed.

Lemma accounts_raise {A} (e : exn) :
  is_CalledProcessError e = false -> accounts (raise e : Py M A).
Proof.
  intros He w. exists []. cbn. rewrite app_nil_r. split; [reflexivity|].
  now destruct e.
Qed.

Lemma accounts_bind {A B} (c : Py M A) (f : A -> Py M B) :
  accounts c -> (forall a, accounts (f a)) -> accounts (c ≫= f).
Proof.
  intros Hc Hf w. unfold mbind, Py_bind.
  destruct (Hc w) as (evs & Hlog & Hfail).
  destruct (c w) as [w1 [a|e]]; cbn in *.
  - destruct (Hf a w1) as (evs' & Hlog' & Hfail').
    exists (evs ++ evs'). rewrite Hlog', Hlog, <- app_assoc.
    split; [reflexivity|].
    unfold failures in *. now rewrite flat_map_app, Hfail.
  - now exists evs.
Qed.

Lemma accounts_emit (e : event) :
  match e with EvRun _ _ => False | _ => True end ->
  accounts (emit e : Py M unit).
Proof. intros He w. exists [e]. cbn. now destruct e. Qed.

Lemma accounts_check_output argv : accounts (check_output argv).
Proof.
  intros w. unfold check_output.
  destruct (exec argv (host w)) as [h [rc out]].
  exists [EvRun argv rc]. destruct (rc =? 0)%Z eqn:E; cbn; now rewrite E.
Qed.

Lemma accounts_readline : accounts (readline : Py M pystr).
Proof.
  intros w. exists []. unfold readline.
  destruct (stdin w); cbn; now rewrite app_nil_r.
Qed.

Lemma accounts_response url : accounts (response url : Py M node).
Proof.
  intros w. exists []. unfold response.
  destruct (web w url); cbn; now rewrite app_nil_r.
Qed.

Lemma accounts_try_except {A} (body : Py M A) handled handler :
  accounts body ->
  (forall e, handled e = true -> is_CalledProcessError e = false) ->
  (forall e, accounts (handler e)) ->
  accounts (try_except body handled handler).
Proof.
  intros Hb Hh Hhd w. unfold try_except.
  destruct (Hb w) as (evs & Hlog & Hfail).
  destruct (body w) as [w1 [a|e]]; cbn in *; [now exists evs|].
  destruct (handled e) eqn:He; [|now exists evs].
  destruct (Hhd e w1) as (evs' & Hlog' & Hfail').
  exists (evs ++ evs'). rewrite Hlog', Hlog, <- app_assoc.
  split; [reflexivity|].
  unfold failures in *. rewrite flat_map_app, Hfail, Hfail'.
  specialize (Hh e He). now destruct e.
Qed.

Lemma accounts_pointwise {A} (c : Py M A) :
  (forall w, exists c', accounts c' /\ c w = c' w) -> accounts c.
Proof. intros H w. destruct (H w) as (c' & Hc' & ->). apply Hc'. Qed.
End Accounting.

#[local] Hint Resolve accounts_ret accounts_check_output accounts_readline
  accounts_response : accounts.
#[local] Hint Extern 1 (accounts (raise _)) =>
  apply accounts_raise; reflexivity : accounts.
#[local] Hint Extern 1 (accounts (emit _)) =>
  apply accounts_emit; exact I : accounts.
#[local] Hint Extern 2 (accounts (_ ≫= _)) =>
  apply accounts_bind; [|intros ?] : accounts.
#[local] Hint Extern 3 (accounts (if ?b then _ else _)) =>
  destruct b : accounts.
#[local] Hint Extern 3 (accounts (match ?x with Some _ => _ | None => _ end)) =>
  destruct x : accounts.
#[local] Hint Extern 3 (accounts (match ?x with [] => _ | _ :: _ => _ end)) =>
  destruct x : accounts.

Ltac accounting := unfold when; auto 20 with accounts.

Section AccountingOfTheScript.
Context {M : Type} {T : ExternalTool M} {U : UnicodeData}.

Lemma accounts_sleep secs : accounts (M:=M) (sleep secs : Py M unit).
Proof. unfold sleep. accounting. Qed.

Lemma accounts_print line : accounts (M:=M) (print line : Py M unit).
Proof. unfold print. accounting. Qed.

Lemma accounts_input prompt : accounts (M:=M) (input prompt : Py M pystr).
Proof. unfold input. accounting. Qed.

Lemma accounts_fetch_soup url : accounts (M:=M) (fetch_soup url : Py M node).
Proof. unfold fetch_soup. accounting. Qed.

Lemma accounts_subscript {A} (l : list A) i : accounts (M:=M) (subscript l i : Py M A).
Proof. unfold subscript. cbv zeta. accounting. Qed.

Lemma accounts_is_connected self : accounts (M:=M) (is_connected self).
Proof. unfold is_connected. accounting. Qed.
Hint Resolve accounts_sleep accounts_print accounts_input
  accounts_fetch_soup accounts_subscript accounts_is_connected : accounts.

Lemma accounts_connect self b : accounts (M:=M) (connect self b).
Proof. unfold connect. accounting. Qed.

Lemma accounts_disconnect self b : accounts (M:=M) (disconnect self b).
Proof. unfold disconnect. accounting. Qed.
Hint Resolve accounts_connect accounts_disconnect : accounts.

Lemma accounts_restart self : accounts (M:=M) (restart self).
Proof. unfold restart. accounting. Qed.

Lemma accounts_set_remote_address self address :
  accounts (M:=M) (set_remote_address self address).
Proof. unfold set_remote_address, set_data_item. accounting. Qed.

Lemma accounts_row tr : accounts (M:=M) (row tr : Py M server).
Proof.
  unfold row, not_None, call_strip.
  repeat (apply accounts_bind; [|intros ?]); accounting.
  destruct a0; accounting.
Qed.

Lemma accounts_rows trs : forall acc, accounts (rows trs acc : Py M (list server)).
Proof.
  induction trs as [|tr trs IH]; intros acc; cbn [rows]; [accounting|].
  apply accounts_bind; [apply accounts_row|]. intros sv. apply IH.
Qed.

Lemma accounts_get_servers_list url : accounts (M:=M) (get_servers_list url).
Proof.
  unfold get_servers_list, not_None.
  apply accounts_bind; [accounting|]. intros soup.
  apply accounts_bind; [accounting|]. intros table.
  apply accounts_bind; [accounting|]. intros tbody.
  apply accounts_rows.
Qed.

Lemma accounts_print_rows servers :
  forall i w1 w2, accounts (print_rows i servers w1 w2 : Py M unit).
Proof.
  induction servers as [|sv servers IH]; intros i w1 w2; cbn [print_rows];
    [accounting|].
  apply accounts_bind; [unfold call_ljust; destruct (location sv); accounting|].
  intros loc. apply accounts_bind; [accounting|]. intros _. apply IH.
Qed.

Lemma accounts_print_servers_list servers :
  accounts (M:=M) (print_servers_list servers : Py M unit).
Proof.
  unfold print_servers_list, max_of. cbv zeta.
  apply accounts_bind; [accounting|]. intros width.
  apply accounts_bind; [accounting|]. intros _. apply accounts_print_rows.
Qed.

Lemma accounts_ask servers : accounts (M:=M) (ask servers).
Proof. unfold ask, int. cbv zeta. accounting. Qed.

Lemma accounts_choose fuel servers : accounts (M:=M) (choose fuel servers).
Proof.
  induction fuel as [|fuel IH]; cbn [choose]; [accounting|].
  apply accounts_bind.
  - apply accounts_try_except.
    + unfold fmap, Py_fmap. pose proof (accounts_ask servers). accounting.
    + now intros [].
    + intros e. accounting.
  - intros [n|]; [accounting|exact IH].
Qed.

Lemma accounts_get_chosen_server servers :
  accounts (M:=M) (get_chosen_server servers).
Proof.
  apply accounts_pointwise. intros w.
  exists (choose (S (length (stdin w))) servers).
  split; [apply accounts_choose|reflexivity].
Qed.

Lemma accounts_main_try arguments : accounts (M:=M) (main_try arguments).
Proof.
  pose proof accounts_restart. pose proof accounts_set_remote_address.
  pose proof accounts_get_servers_list. pose proof accounts_print_servers_list.
  pose proof accounts_get_chosen_server.
  unfold main_try. cbv zeta. accounting.
Qed.

Lemma in_failures argv rc evs :
  In (EvRun argv rc) evs -> rc <> 0%Z -> In rc (failures evs).
Proof.
  intros Hin Hrc. unfold failures. apply in_flat_map.
  exists (EvRun argv rc). split; [exact Hin|].
  destruct (Z.eqb_spec rc 0); [contradiction|]. now left.
Qed.
End AccountingOfTheScript.

(** ** Choosing a server *)

Section Choosing.
Context {M : Type} {T : ExternalTool M} {U : UnicodeData}.

Lemma input_line (w : World M) prompt line rest :
  stdin w = line :: rest ->
  input prompt w = (consumed w rest [EvPrompt prompt], Ok line).
Proof.
  intros H. unfold input, mbind, Py_bind, emit, readline. cbn. now rewrite H.
Qed.

Lemma ask_refused servers (w : World M) line rest :
  stdin w = line :: rest -> refused servers line ->
  ask servers w = (consumed w rest [EvPrompt PROMPT], Raise ValueError).
Proof.
  intros Hin Hbad. unfold ask.
  destruct Hbad as [Hnone | (n & Hsome & Hrange)].
  - rewrite (bind_ok _ _ _ _ _ (input_line _ _ _ _ Hin)).
    unfold int, mbind, Py_bind. now rewrite Hnone.
  - rewrite (bind_ok _ _ _ _ _ (input_line _ _ _ _ Hin)).
    unfold int, mbind, Py_bind. rewrite Hsome. cbn.
    destruct (Z.leb_spec 0 (n - 1)), (Z.ltb_spec (n - 1) (Z.of_nat (length servers)));
      cbn; try reflexivity. lia.
Qed.

Lemma ask_accepted servers (w : World M) line rest n :
  stdin w = line :: rest -> int_of_str line = Some n ->
  (0 <= n - 1 < Z.of_nat (length servers))%Z ->
  ask servers w = (consumed w rest [EvPrompt PROMPT], Ok (n - 1)%Z).
Proof.
  intros Hin Hsome Hrange. unfold ask.
  rewrite (bind_ok _ _ _ _ _ (input_line _ _ _ _ Hin)).
  unfold int, mbind, Py_bind. rewrite Hsome. cbn.
  destruct (Z.leb_spec 0 (n - 1)), (Z.ltb_spec (n - 1) (Z.of_nat (length servers)));
    cbn; try reflexivity; lia.
Qed.

Lemma choose_unfold fuel servers (w : World M) :
  choose (S fuel) servers w
  = match ask servers w with
    | (w', Ok server_number) => subscript servers server_number w'
    | (w', Raise e) =>
        if is_ValueError e
        then choose fuel servers (logged w' [EvWrite INVALID])
        else (w', Raise e)
    end.
Proof.
  cbn [choose]. unfold try_except, fmap, Py_fmap, mbind, Py_bind.
  destruct (ask servers w) as [w' [n|e]]; [reflexivity|].
  destruct (is_ValueError e); reflexivity.
Qed.

Lemma choose_refused fuel servers (w : World M) line rest :
  stdin w = line :: rest -> refused servers line ->
  choose (S fuel) servers w
  = choose fuel servers (consumed w rest [EvPrompt PROMPT; EvWrite INVALID]).
Proof.
  intros Hin Hbad. rewrite choose_unfold, (ask_refused _ _ _ _ Hin Hbad).
  cbn [is_ValueError]. unfold consumed, logged. cbn.
  now rewrite <- app_assoc.
Qed.

Lemma choose_accepted fuel servers (w : World M) line rest n sv :
  stdin w = line :: rest -> int_of_str line = Some n ->
  servers !! Z.to_nat (n - 1) = Some sv -> (0 <= n - 1)%Z ->
  choose (S fuel) servers w = (consumed w rest [EvPrompt PROMPT], Ok sv).
Proof.
  intros Hin Hsome Hsv Hpos. rewrite choose_unfold.
  assert (Hr : (0 <= n - 1 < Z.of_nat (length servers))%Z).
  { split; [exact Hpos|]. apply lookup_lt_Some in Hsv. lia. }
  rewrite (ask_accepted _ _ _ _ _ Hin Hsome Hr).
  unfold subscript. destruct (Z.ltb_spec (n - 1) 0); [lia|].
  destruct (Z.ltb_spec (n - 1) 0); [lia|]. now rewrite Hsv.
Qed.

(** More fuel than lines changes nothing: the loop never runs dry. *)
Lemma choose_fuel servers lines :
  forall (w : World M) fuel,
    stdin w = lines -> (length lines < fuel)%nat ->
    choose fuel servers w = choose (S (length lines)) servers w.
Proof.
  induction lines as [|line rest IH]; intros w fuel Hin Hf.
  - destruct fuel as [|fuel]; [lia|]. cbn [length].
    rewrite !choose_unfold.
    assert (Hask : ask servers w = (logged w [EvPrompt PROMPT], Raise EOFError)).
    { unfold ask, input, mbind, Py_bind, emit, readline. cbn. now rewrite Hin. }
    now rewrite Hask.
  - destruct fuel as [|fuel]; [cbn in Hf; lia|].
    destruct (int_of_str line) as [n|] eqn:Hint.
    + destruct (decide (0 <= n - 1 < Z.of_nat (length servers))%Z) as [Hr|Hr].
      * destruct (lookup_lt_is_Some_2 servers (Z.to_nat (n - 1))) as [sv Hsv];
          [lia|].
        rewrite !(choose_accepted _ _ _ _ _ _ _ Hin Hint Hsv) by lia.
        reflexivity.
      * rewrite !(choose_refused _ _ _ _ _ Hin) by (right; eauto).
        apply IH; [reflexivity | cbn in Hf; lia].
    + rewrite !(choose_refused _ _ _ _ _ Hin) by (left; exact Hint).
      apply IH; [reflexivity | cbn in Hf; lia].
Qed.

Lemma digit_ascii (c : N) (r : pystr) (acc : Z) (u : bool) :
  (48 <= c <= 57)%N ->
  digits_go (c :: r) acc u = digits_go r (10 * acc + (Z.of_N c - 48))%Z false.
Proof.
  intros Hc. cbn [digits_go].
  destruct (N.eqb_spec c UNDERSCORE) as [->|_]; [unfold UNDERSCORE in Hc; lia|].
  rewrite to_decimal_ascii by lia.
  destruct (N.leb_spec 48 c), (N.leb_spec c 57); try lia. reflexivity.
Qed.

Lemma int_abc : int_of_str (py "abc") = None.
Proof.
  change (int_of_str (py "abc")) with (digits_go [97; 98; 99]%N 0 false).
  cbn [digits_go]. change (97 =? UNDERSCORE)%N with false. cbv iota.
  now rewrite (to_decimal_ascii 97%N).
Qed.

Lemma int_digit (c : N) :
  (48 <= c <= 57)%N -> int_of_str [c] = Some (Z.of_N c - 48)%Z.
Proof.
  intros Hc. unfold int_of_str.
  assert (Hs : int_space c = false).
  { unfold int_space.
    destruct (N.leb_spec 9 c), (N.leb_spec c 13), (N.eqb_spec c 32),
      (N.leb_spec 127 c); try lia; reflexivity. }
  cbn [int_lstrip rev app]. rewrite Hs. cbn [int_lstrip rev app]. rewrite Hs.
  destruct c as [|p]; [lia|].
  assert (E : digits [N.pos p] = Some (Z.of_N (N.pos p) - 48)%Z).
  { unfold digits. destruct (N.eqb_spec (N.pos p) UNDERSCORE) as [E|_];
      [unfold UNDERSCORE in E; lia|].
    rewrite digit_ascii by exact Hc. reflexivity. }
  destruct p as [p|p|]; try exact E; destruct p as [p|p|]; try exact E;
    destruct p as [p|p|]; try exact E; destruct p as [p|p|]; try exact E;
    destruct p as [p|p|]; try exact E; destruct p as [p|p|]; try exact E;
    lia.
Qed.

(** Whatever the input, the [try] block starts with the prompt. *)
Lemma ask_world servers (w : World M) :
  exists lines r,
    ask servers w = (consumed w lines [EvPrompt PROMPT], r).
Proof.
  unfold ask, input, emit, readline, int, mbind, Py_bind, consumed, logged.
  cbn [host stdin web log].
  destruct (stdin w) as [|line rest].
  { exists [], (Raise EOFError). reflexivity. }
  destruct (int_of_str line) as [n|].
  2:{ exists rest, (Raise ValueError). reflexivity. }
  cbn [mret Py_ret raise]. destruct (negb _); eexists rest, _; reflexivity.
Qed.

Lemma choose_prompts fuel servers (w : World M) :
  exists evs,
    log (choose (S fuel) servers w).1 = log w ++ EvPrompt PROMPT :: evs.
Proof.
  rewrite choose_unfold. destruct (ask_world servers w) as (lines & r & ->).
  destruct r as [n|e].
  - destruct (accounts_subscript (M:=M) servers n
                (consumed w lines [EvPrompt PROMPT])) as (evs & -> & _).
    exists evs. cbn. now rewrite <- app_assoc.
  - destruct (is_ValueError e); [|now exists []].
    destruct (accounts_choose fuel servers
                (logged (consumed w lines [EvPrompt PROMPT]) [EvWrite INVALID]))
      as (evs & -> & _).
    exists (EvWrite INVALID :: evs). cbn. now rewrite <- !app_assoc.
Qed.

(** More fuel than lines is as good as the fuel [get_chosen_server]
    takes. *)
Lemma enough_fuel servers (w : World M) fuel :
  (length (stdin w) < fuel)%nat ->
  choose fuel servers w = get_chosen_server servers w.
Proof. intros H. now apply choose_fuel. Qed.

Lemma consumed_consumed (w : World M) r r' evs evs' :
  consumed (consumed w r evs) r' evs' = consumed w r' (evs ++ evs').
Proof. unfold consumed. cbn. now rewrite <- app_assoc. Qed.
End Choosing.

(** C7: against two servers the lines "abc", "0", "5", "2" give the prompt
    four times, the first three each answered by the error message, and
    then the second server.  In general a line that is no integer, or whose
    number less one falls outside [0, len(servers)), costs one prompt and
    one error message, after which the function starts over on the lines
    that are left. *)
Theorem get_chosen_server_retries
  {M : Type} {T : ExternalTool M} {U : UnicodeData} :
  (forall (w : World M) (a b : server) (rest : list pystr),
      stdin w = [py "abc"; py "0"; py "5"; py "2"] ++ rest ->
      get_chosen_server [a; b] w
      = (consumed w rest
           [EvPrompt PROMPT; EvWrite INVALID;
            EvPrompt PROMPT; EvWrite INVALID;
            EvPrompt PROMPT; EvWrite INVALID;
            EvPrompt PROMPT],
         Ok b))
  /\ (forall (servers : list server) (w : World M) (line : pystr)
        (rest : list pystr),
        stdin w = line :: rest ->
        refused servers line ->
        get_chosen_server servers w
        = get_chosen_server servers
            (consumed w rest [EvPrompt PROMPT; EvWrite INVALID])
        /\ exists evs,
            log (get_chosen_server servers w).1
            = log w ++ [EvPrompt PROMPT; EvWrite INVALID; EvPrompt PROMPT]
                ++ evs).
Proof.
  split.
  - intros w a b rest Hin. unfold get_chosen_server. rewrite Hin.
    cbn [length app].
    rewrite (choose_refused _ _ _ _ _ Hin) by (left; apply int_abc).
    erewrite choose_refused;
      [| reflexivity
       | right; exists 0%Z; split; [apply (int_digit 48%N); lia | cbn; lia]].
    erewrite choose_refused;
      [| reflexivity
       | right; exists 5%Z; split; [apply (int_digit 53%N); lia | cbn; lia]].
    erewrite (choose_accepted _ _ _ _ _ 2%Z b);
      [| reflexivity | apply (int_digit 50%N); lia | reflexivity | lia].
    now rewrite !consumed_consumed.
  - intros servers w line rest Hin Hbad.
    assert (E : get_chosen_server servers w
                = get_chosen_server servers
                    (consumed w rest [EvPrompt PROMPT; EvWrite INVALID])).
    { unfold get_chosen_server. rewrite Hin. cbn [length].
      now rewrite (choose_refused _ _ _ _ _ Hin Hbad). }
    split; [exact E|]. rewrite E. unfold get_chosen_server.
    destruct (choose_prompts
                (length (stdin (consumed w rest
                                  [EvPrompt PROMPT; EvWrite INVALID])))
                servers (consumed w rest [EvPrompt PROMPT; EvWrite INVALID]))
      as (evs & ->).
    exists evs. cbn. now rewrite <- app_assoc.
Qed.


(** ** Fetching the server list *)

Section Rows.
Context {M : Type} {T : ExternalTool M}.

Lemma subscript_lookup {A} (l : list A) (i : nat) (w : World M) :
  subscript l (Z.of_nat i) w
  = (w, match l !! i with Some a => Ok a | None => Raise IndexError end).
Proof.
  assert (H : (Z.of_nat i <? 0)%Z = false) by (apply Z.ltb_ge; lia).
  unfold subscript. cbv zeta. rewrite !H, Nat2Z.id.
  now destruct (l !! i).
Qed.

Lemma call_strip_cases (child : node) (w : World M) :
  exists r, call_strip child w = (w, r)
            /\ match r with Raise e => e = TypeError | Ok _ => True end.
Proof.
  destruct child as [s|nm cs]; cbn.
  - eexists; split; [reflexivity|exact I].
  - destruct (find _ _); eexists; (split; [reflexivity|]); easy.
Qed.

(** The loop body leaves the world alone; it fails with one of the three
    exceptions, and it fails on every row with fewer than two cells. *)
Lemma row_cases (tr : node) (w : World M) :
  exists r, row tr w = (w, r)
            /\ match r with
               | Raise e => e ∈ parse_errors
               | Ok _ => (2 <= length (find_all tr (py "td")))%nat
               end.
Proof.
  unfold row, parse_errors.
  change 0%Z with (Z.of_nat 0). change 1%Z with (Z.of_nat 1).
  change 2%Z with (Z.of_nat 2).
  unfold mbind at 1, Py_bind at 1. rewrite subscript_lookup.
  destruct (find_all tr (py "td")) as [|td0 tds] eqn:Htds; cbn [lookup list_lookup].
  { eexists; split; [reflexivity|]. set_solver. }
  unfold mbind at 1, Py_bind at 1. rewrite subscript_lookup.
  destruct (children td0 !! 2%nat) as [child|].
  2:{ eexists; split; [reflexivity|]. set_solver. }
  unfold mbind at 1, Py_bind at 1.
  destruct (call_strip_cases child w) as (r & -> & Hr).
  destruct r as [loc|e].
  2:{ subst e. eexists; split; [reflexivity|]. set_solver. }
  unfold mbind at 1, Py_bind at 1. rewrite subscript_lookup.
  destruct tds as [|td1 tds]; cbn [lookup list_lookup].
  { eexists; split; [reflexivity|]. set_solver. }
  unfold mbind at 1, Py_bind at 1. unfold not_None.
  destruct (string_of td1) as [s|]; cbn.
  - eexists; split; [reflexivity|]. cbn. lia.
  - eexists; split; [reflexivity|]. set_solver.
Qed.


Lemma rows_cases (trs : list node) :
  forall (acc : list server) (w : World M),
  exists r, rows trs acc w = (w, r)
            /\ match r with
               | Raise e => e ∈ parse_errors
               | Ok _ => Forall (fun tr => 2 <= length (find_all tr (py "td")))%nat trs
               end.
Proof.
  induction trs as [|tr trs IH]; intros acc w; cbn [rows].
  - eexists; split; [reflexivity|]. constructor.
  - unfold mbind, Py_bind.
    destruct (row_cases tr w) as (r & -> & Hr). destruct r as [sv|e].
    + destruct (IH (acc ++ [sv]) w) as (r' & -> & Hr').
      exists r'. split; [reflexivity|]. destruct r'; [|exact Hr'].
      now constructor.
    + exists (Raise e). now split.
Qed.


Lemma get_servers_list_unfold url (w : World M) soup :
  web w url = Some soup ->
  get_servers_list url w
  = match find soup (py "table") with
    | None => (logged w [EvGet url], Raise AttributeError)
    | Some table =>
        match find table (py "tbody") with
        | None => (logged w [EvGet url], Raise AttributeError)
        | Some tbody =>
            rows (find_all tbody (py "tr")) [] (logged w [EvGet url])
        end
    end.
Proof.
  intros Hweb. unfold get_servers_list.
  assert (Hf : fetch_soup url w = (logged w [EvGet url], Ok soup)).
  { unfold fetch_soup, mbind, Py_bind, emit, response. cbn. now rewrite Hweb. }
  rewrite (bind_ok _ _ _ _ _ Hf).
  destruct (find soup (py "table")) as [table|]; [|reflexivity].
  unfold mbind at 1, Py_bind at 1. cbn [not_None mret Py_ret].
  destruct (find table (py "tbody")) as [tbody|]; reflexivity.
Qed.
End Rows.

(** The cells of a row are among the [td] elements found below it: a row
    with fewer than two of these has fewer than two cells. *)
Lemma cells_found (tr : node) :
  (length (cells tr) <= length (find_all tr (py "td")))%nat.
Proof.
  unfold cells, find_all. destruct tr as [s|nm cs]; cbn [children descendants].
  - cbn. lia.
  - induction cs as [|c cs IH]; [cbn; lia|].
    cbn [flat_map]. rewrite <- app_comm_cons. cbn [List.filter].
    destruct (has_name (py "td") c); cbn [length];
      rewrite List.filter_app, length_app; lia.
Qed.

(** C8 (as amended): when the page has no table, or the first table has no
    body, or below some [tr] of that body fewer than two [td] elements are
    found, at any depth, [get_servers_list] ends in an exception the script
    does not catch ([AttributeError], [IndexError] or [TypeError]; it has no
    error class of its own) and returns no list, not even the rows before
    the bad one. *)
Theorem get_servers_list_unexpected_page
  {M : Type} {T : ExternalTool M} (url : pystr) (w : World M) (soup : node) :
  web w url = Some soup ->
  (find soup (py "table") = None
   \/ (exists table,
          find soup (py "table") = Some table
          /\ find table (py "tbody") = None)
   \/ (exists table tbody tr,
          find soup (py "table") = Some table
          /\ find table (py "tbody") = Some tbody
          /\ tr ∈ find_all tbody (py "tr")
          /\ (length (find_all tr (py "td")) < 2)%nat)) ->
  exists e,
    e ∈ parse_errors
    /\ get_servers_list url w = (logged w [EvGet url], Raise e).
Proof.
  intros Hweb Hbad. rewrite (get_servers_list_unfold _ _ _ Hweb).
  destruct Hbad as [-> | [(table & -> & ->) | (table & tbody & tr & -> & -> & Hin & Hlen)]].
  - exists AttributeError. split; [unfold parse_errors; set_solver | reflexivity].
  - exists AttributeError. split; [unfold parse_errors; set_solver | reflexivity].
  - destruct (rows_cases (find_all tbody (py "tr")) [] (logged w [EvGet url]))
      as (r & -> & Hr).
    destruct r as [svs|e]; [|now exists e].
    exfalso. rewrite Forall_forall in Hr. specialize (Hr tr Hin). lia.
Qed.


(** A page without a table, and a page whose second row has one cell. *)
Lemma get_servers_list_unexpected_page_witness :
  (exists e,
      e ∈ parse_errors
      /\ get_servers_list URL (world_with no_table_page)
         = (logged (world_with no_table_page) [EvGet URL], Raise e))
  /\ (exists e,
         e ∈ parse_errors
         /\ get_servers_list URL (world_with short_row_page)
            = (logged (world_with short_row_page) [EvGet URL], Raise e)).
Proof.
  split.
  - apply (get_servers_list_unexpected_page URL (world_with no_table_page)
             no_table_page); [reflexivity|].
    left. reflexivity.
  - apply (get_servers_list_unexpected_page URL (world_with short_row_page)
             short_row_page); [reflexivity|].
    right. right. eexists _, _, _.
    split; [reflexivity|]. split; [reflexivity|].
    split; [vm_compute; right; left|vm_compute; lia].
Defined.

(** C8 as stated fails on a row with a single cell that holds a [td] of its
    own: the row lacks the second cell, and still two [td] elements are
    found below it, the second is read as the address, and a record is
    returned. *)
Lemma get_servers_list_nested_cell_returns :
  (exists table tbody tr,
      find nested_cell_page (py "table") = Some table
      /\ find table (py "tbody") = Some tbody
      /\ find_all tbody (py "tr") = [tr]
      /\ length (cells tr) = 1%nat
      /\ length (find_all tr (py "td")) = 2%nat)
  /\ get_servers_list URL (world_with nested_cell_page)
     = (logged (world_with nested_cell_page) [EvGet URL], Ok [france]).
Proof.
  split.
  - eexists _, _, _. split; [reflexivity|]. split; [reflexivity|].
    split; [reflexivity|]. split; reflexivity.
  - vm_compute. reflexivity.
Qed.



(** ** Exit status *)

(** C9: whenever a run of the tool in the course of the command ends with a
    non-zero exit code (1 to 255), that code is the exit status of the
    script. *)
Theorem script_exit_status
  {M : Type} {T : ExternalTool M} {U : UnicodeData}
  (arguments : Namespace) (w : World M)
  (evs : list event) (argv : list pystr) (rc : Z) :
  log (script arguments w).1 = log w ++ evs ->
  In (EvRun argv rc) evs ->
  (0 < rc < 256)%Z ->
  (script arguments w).2 = rc.
Proof.
  intros Hlog Hin Hrc.
  destruct (accounts_main_try arguments w) as (evs' & Hlog' & Hfail).
  assert (Hs : script arguments w
               = match main_try arguments w with
                 | (w', Ok status) => (w', Z.land status 255)
                 | (w', Raise (CalledProcessError returncode)) =>
                     (w', Z.land returncode 255)
                 | (w', Raise _) => (w', 1%Z)
                 end).
  { unfold script, main, try_except.
    destruct (main_try arguments w) as [w1 [status|[]]]; reflexivity. }
  rewrite Hs in *. clear Hs.
  assert (Hf : In rc (failures evs')).
  { apply (in_failures argv); [|lia].
    destruct (main_try arguments w) as [w1 [status|[]]]; cbn [fst] in *;
      rewrite Hlog' in Hlog; apply app_inv_head in Hlog; now subst. }
  rewrite Hfail in Hf.
  destruct (main_try arguments w) as [w1 [status|[]]]; cbn [fst snd] in *;
    try (now destruct Hf).
  destruct Hf as [<- | []].
  replace 255%Z with (Z.ones 8) by reflexivity.
  rewrite Z.land_ones by lia. apply Z.mod_small. lia.
Qed.

(** Turning off a profile the host does not know: the state query ends with
    code 10, and so does the script. *)
Lemma script_exit_status_witness :
  (script turn_off_other (world_down [])).2 = UNKNOWN_CONNECTION.
Proof.
  apply (script_exit_status turn_off_other (world_down [])
           [EvRun (argv_state (py "Other")) UNKNOWN_CONNECTION]
           (argv_state (py "Other")) UNKNOWN_CONNECTION).
  - reflexivity.
  - left. reflexivity.
  - unfold UNKNOWN_CONNECTION. lia.
Defined.

(** Four lines against the two example servers, and a refused line followed
    by an accepted one. *)
Lemma get_chosen_server_retries_witness :
  get_chosen_server [france; germany]
    (world_up [py "abc"; py "0"; py "5"; py "2"])
  = (consumed (world_up []) []
       [EvPrompt PROMPT; EvWrite INVALID; EvPrompt PROMPT; EvWrite INVALID;
        EvPrompt PROMPT; EvWrite INVALID; EvPrompt PROMPT],
     Ok germany)
  /\ exists evs,
      log (get_chosen_server [france; germany]
             (world_up [py "three"; py "1"])).1
      = [EvPrompt PROMPT; EvWrite INVALID; EvPrompt PROMPT] ++ evs.
Proof.
  split.
  - apply (proj1 get_chosen_server_retries
             (world_up [py "abc"; py "0"; py "5"; py "2"]) france germany []).
    reflexivity.
  - apply (proj2 get_chosen_server_retries [france; germany]
             (world_up [py "three"; py "1"]) (py "three") [py "1"]).
    + reflexivity.
    + left. reflexivity.
Defined.

(** * Further properties of the code *)

(** ** The selection loop *)

Section ChoosingMore.
Context {M : Type} {T : ExternalTool M} {U : UnicodeData}.

Lemma refused_dec servers line :
  refused servers line
  \/ exists n, int_of_str line = Some n
               /\ (0 <= n - 1 < Z.of_nat (length servers))%Z.
Proof.
  unfold refused. destruct (int_of_str line) as [n|]; [|now left; left].
  destruct (decide (0 <= n - 1 < Z.of_nat (length servers))%Z) as [Hr|Hr].
  - right. now exists n.
  - left. right. now exists n.
Qed.

(** The three ways the [try] block can end. *)
Lemma ask_cases servers (w : World M) :
  (stdin w = []
   /\ ask servers w = (consumed w [] [EvPrompt PROMPT], Raise EOFError))
  \/ (exists line rest,
         stdin w = line :: rest
         /\ ((refused servers line
              /\ ask servers w
                 = (consumed w rest [EvPrompt PROMPT], Raise ValueError))
             \/ (exists n,
                    int_of_str line = Some n
                    /\ (0 <= n - 1 < Z.of_nat (length servers))%Z
                    /\ ask servers w
                       = (consumed w rest [EvPrompt PROMPT], Ok (n - 1)%Z)))).
Proof.
  destruct (stdin w) as [|line rest] eqn:Hin.
  - left. split; [reflexivity|].
    unfold ask, input, mbind, Py_bind, emit, readline, consumed, logged.
    cbn [host stdin web log]. now rewrite Hin.
  - right. exists line, rest. split; [reflexivity|].
    destruct (refused_dec servers line) as [Hbad|(n & Hn & Hr)].
    + left. split; [exact Hbad|]. exact (ask_refused _ _ _ _ Hin Hbad).
    + right. exists n. split; [exact Hn|]. split; [exact Hr|].
      exact (ask_accepted _ _ _ _ _ Hin Hn Hr).
Qed.

Lemma consumed_self (w : World M) : consumed w (stdin w) [] = w.
Proof. destruct w. unfold consumed. cbn. now rewrite app_nil_r. Qed.

Lemma logged_consumed (w : World M) r evs evs' :
  logged (consumed w r evs) evs' = consumed w r (evs ++ evs').
Proof. unfold logged, consumed. cbn. now rewrite <- app_assoc. Qed.

(** Whatever the fuel: the loop reads a prefix of the lines, prompts and
    prints, and ends with a record of the list or with [EOFError]. *)
Lemma choose_cases servers fuel :
  forall w : World M,
  exists rest evs r,
    choose fuel servers w = (consumed w rest evs, r)
    /\ rest `suffix_of` stdin w
    /\ Forall (fun e => is_console e = true) evs
    /\ match r with
       | Ok sv => sv ∈ servers
       | Raise e =>
           e = EOFError /\ ((length (stdin w) < fuel)%nat -> rest = [])
       end.
Proof.
  induction fuel as [|fuel IH]; intros w.
  - exists (stdin w), [], (Raise EOFError). cbn [choose].
    unfold raise. rewrite consumed_self.
    repeat split; [reflexivity|constructor|lia].
  - rewrite choose_unfold.
    destruct (ask_cases servers w)
      as [[Hin ->] | (line & rest & Hin & [[Hbad ->] | (n & Hn & Hr & ->)])].
    + cbn [is_ValueError]. exists [], [EvPrompt PROMPT], (Raise EOFError).
      repeat split; [apply suffix_nil | repeat constructor].
    + cbn [is_ValueError]. rewrite logged_consumed.
      destruct (IH (consumed w rest ([EvPrompt PROMPT] ++ [EvWrite INVALID])))
        as (rest' & evs & r & -> & Hsuf & Hevs & Hr).
      exists rest', (([EvPrompt PROMPT] ++ [EvWrite INVALID]) ++ evs), r.
      rewrite consumed_consumed. split; [reflexivity|].
      split; [|split].
      * rewrite Hin. cbn [stdin consumed] in Hsuf. now apply suffix_cons_r.
      * apply Forall_app. split; [repeat constructor|exact Hevs].
      * destruct r as [sv|e]; [exact Hr|]. destruct Hr as [He Hr].
        split; [exact He|]. intros Hf. apply Hr.
        rewrite Hin in Hf. cbn [stdin consumed length] in *. lia.
    + replace (n - 1)%Z with (Z.of_nat (Z.to_nat (n - 1))) by lia.
      rewrite subscript_lookup.
      destruct (lookup_lt_is_Some_2 servers (Z.to_nat (n - 1))) as [sv Hsv];
        [lia|].
      rewrite Hsv. exists rest, [EvPrompt PROMPT], (Ok sv).
      split; [reflexivity|]. split; [rewrite Hin; apply suffix_cons_r; reflexivity|].
      split; [repeat constructor|]. eapply list_elem_of_lookup_2. exact Hsv.
Qed.

(** [str(k)] read back by [int]. *)
Lemma digits_go_uint (d : Decimal.uint) :
  forall acc : nat,
    digits_go (py (NilEmpty.string_of_uint d)) (Z.of_nat acc) false
    = Some (Z.of_nat (Nat.of_uint_acc d acc)).
Proof.
  induction d as [|d IH|d IH|d IH|d IH|d IH|d IH|d IH|d IH|d IH|d IH];
    intros acc; [reflexivity|..];
    cbn [NilEmpty.string_of_uint Nat.of_uint_acc];
    (change (py (String ?c ?s)) with (N_of_ascii c :: py s) ||
     unfold py; cbn [list_ascii_of_string List.map]; fold (py (NilEmpty.string_of_uint d)));
    rewrite digit_ascii by (cbn; lia); rewrite Nat.tail_mul_spec;
    rewrite <- IH; f_equal; cbn; lia.
Qed.

Lemma uint_digits (d : Decimal.uint) :
  Forall (fun c => 48 <= c <= 57)%N (py (NilEmpty.string_of_uint d)).
Proof.
  induction d; cbn [NilEmpty.string_of_uint]; [constructor|..];
    unfold py; cbn [list_ascii_of_string List.map]; constructor;
    try exact IHd; cbn; lia.
Qed.

Lemma digit_not_space (c : N) : (48 <= c <= 57)%N -> int_space c = false.
Proof.
  intros Hc. unfold int_space.
  destruct (N.leb_spec 9 c), (N.leb_spec c 13), (N.eqb_spec c 32),
    (N.leb_spec 127 c); try lia; reflexivity.
Qed.

Lemma int_of_digits (s : pystr) :
  Forall (fun c => 48 <= c <= 57)%N s -> s <> [] ->
  int_of_str s = digits_go s 0 false.
Proof.
  intros Hs Hne. unfold int_of_str.
  assert (Hl : forall t, Forall (fun c => 48 <= c <= 57)%N t -> int_lstrip t = t).
  { intros [|c t] Ht; [reflexivity|]. cbn [int_lstrip].
    rewrite digit_not_space; [reflexivity|]. now inversion Ht. }
  rewrite (Hl s Hs), Hl by (now apply Forall_rev). rewrite rev_involutive.
  destruct s as [|c r]; [congruence|].
  assert (Hc : (48 <= c <= 57)%N) by now inversion Hs.
  assert (E : digits (c :: r) = digits_go (c :: r) 0 false).
  { unfold digits. destruct (N.eqb_spec c UNDERSCORE) as [E|_];
      [unfold UNDERSCORE in E; lia|reflexivity]. }
  destruct c as [|p]; [lia|].
  destruct p as [p|p|]; try exact E; destruct p as [p|p|]; try exact E;
    destruct p as [p|p|]; try exact E; destruct p as [p|p|]; try exact E;
    destruct p as [p|p|]; try exact E; destruct p as [p|p|]; try exact E;
    lia.
Qed.

Lemma int_str_of_nat (k : nat) : int_of_str (str_of_nat k) = Some (Z.of_nat k).
Proof.
  unfold str_of_nat, NilZero.string_of_uint.
  pose proof (DecimalNat.Unsigned.of_to k) as Hk. unfold Nat.of_uint in Hk.
  destruct (Nat.to_uint k) as [|d|d|d|d|d|d|d|d|d|d] eqn:Hd;
    try (rewrite int_of_digits by (apply uint_digits || (cbn; discriminate));
         change 0%Z with (Z.of_nat 0); rewrite digits_go_uint; now rewrite Hk).
  cbn in Hk. subst k. apply (int_digit 48%N). lia.
Qed.
End ChoosingMore.

(** X1: the number printed in front of a record selects it.  Typing
    [str(i + 1)] on the first line returns [servers[i]] after a single
    prompt, without an error message, and reads that line only. *)
Theorem typed_number_selects
  {M : Type} {T : ExternalTool M} {U : UnicodeData}
  (servers : list server) (w : World M) (i : nat) (sv : server)
  (rest : list pystr) :
  servers !! i = Some sv ->
  stdin w = str_of_nat (i + 1) :: rest ->
  get_chosen_server servers w = (consumed w rest [EvPrompt PROMPT], Ok sv).
Proof.
  intros Hsv Hin. unfold get_chosen_server. rewrite Hin. cbn [length].
  apply (choose_accepted _ _ _ _ _ (Z.of_nat (i + 1)) sv Hin).
  - apply int_str_of_nat.
  - replace (Z.to_nat (Z.of_nat (i + 1) - 1)) with i by lia. exact Hsv.
  - lia.
Qed.

(** X2: when every line of the input is refused, the loop prompts once per
    line and once more, prints the error message once per line, and ends in
    [EOFError]: the end of the input is not caught. *)
Theorem get_chosen_server_input_ends
  {M : Type} {T : ExternalTool M} {U : UnicodeData}
  (servers : list server) (w : World M) :
  Forall (refused servers) (stdin w) ->
  get_chosen_server servers w
  = (consumed w []
       (flat_map (fun _ => [EvPrompt PROMPT; EvWrite INVALID]) (stdin w)
        ++ [EvPrompt PROMPT]),
     Raise EOFError).
Proof.
  unfold get_chosen_server. remember (stdin w) as lines eqn:Hin.
  symmetry in Hin. revert w Hin.
  induction lines as [|line rest IH]; intros w Hin Hall.
  - cbn [length flat_map app]. rewrite choose_unfold.
    destruct (ask_cases servers w)
      as [[_ ->] | (line & rest & Hin' & _)]; [reflexivity|congruence].
  - inversion Hall as [|? ? Hbad Hrest]; subst.
    cbn [length]. rewrite (choose_refused _ _ _ _ _ Hin Hbad).
    rewrite (IH (consumed w rest [EvPrompt PROMPT; EvWrite INVALID]))
      by (reflexivity || exact Hrest).
    rewrite consumed_consumed. reflexivity.
Qed.

(** X3: [get_chosen_server] only reads lines, prompts and prints; it ends
    with a record of the list it was given, or with [EOFError], never with
    another exception.  With an empty list it cannot return. *)
Theorem get_chosen_server_result
  {M : Type} {T : ExternalTool M} {U : UnicodeData}
  (servers : list server) (w : World M) :
  exists rest evs r,
    get_chosen_server servers w = (consumed w rest evs, r)
    /\ rest `suffix_of` stdin w
    /\ Forall (fun e => is_console e = true) evs
    /\ match r with
       | Ok sv => sv ∈ servers
       | Raise e => e = EOFError /\ rest = []
       end
    /\ (servers = [] -> r = Raise EOFError).
Proof.
  unfold get_chosen_server.
  destruct (choose_cases servers (S (length (stdin w))) w)
    as (rest & evs & r & E & Hsuf & Hevs & Hr).
  exists rest, evs, r. rewrite E.
  split; [reflexivity|]. split; [exact Hsuf|]. split; [exact Hevs|]. split.
  - destruct r as [sv|e]; [exact Hr|]. destruct Hr as [He Hr].
    split; [exact He|]. apply Hr. lia.
  - intros ->. destruct r as [sv|e]; [|now destruct Hr as [-> _]].
    now apply not_elem_of_nil in Hr.
Qed.

(** ** The printed table *)

Section Table.
Context {M : Type} {T : ExternalTool M}.

Lemma foldl_max_list (x : nat) (r : list nat) :
  foldl Nat.max x r = max_list (x :: r).
Proof.
  revert x. induction r as [|y r IH]; intros x; cbn [foldl].
  - cbn. unfold id. lia.
  - rewrite IH. cbn. unfold id. lia.
Qed.

Lemma print_run line (w : World M) :
  print line w = (logged w [EvWrite line], Ok tt).
Proof. reflexivity. Qed.

(** The rows after the header, for servers whose locations are texts no
    longer than the column. *)
Lemma print_rows_text (rows : list (pystr * pystr)) (w1 width : nat) :
  (forall loc addr, (loc, addr) ∈ rows -> (length loc <= width)%nat) ->
  forall (i : nat) (w : World M),
  exists lines,
    print_rows i
      ((fun r => {| location := VStr r.1; address := r.2 |}) <$> rows)
      w1 width w
    = (logged w (EvWrite <$> lines), Ok tt)
    /\ length lines = length rows
    /\ forall j loc addr,
         rows !! j = Some (loc, addr) ->
         lines !! j
         = Some (ljust (str_of_nat (i + j + 1)) w1 ++ TAB
                 ++ (loc ++ replicate (width - length loc) SPACE) ++ TAB
                 ++ addr).
Proof.
  induction rows as [|[loc addr] rows IH]; intros Hw i w.
  - exists []. cbn. unfold logged. cbn. rewrite app_nil_r.
    destruct w. repeat split. intros j ? ? Hj. now rewrite lookup_nil in Hj.
  - destruct (IH (fun l a H => Hw l a (list_elem_of_further _ _ _ H)) (S i)
                (logged w [EvWrite
                             (ljust (str_of_nat (i + 1)) w1 ++ TAB
                              ++ ljust loc width ++ TAB ++ addr)]))
      as (lines & Hrun & Hlen & Hlines).
    eexists (_ :: lines). cbn [fmap list_fmap print_rows location address fst snd].
    split; [|split].
    + unfold mbind at 1, Py_bind at 1. cbn [call_ljust mret Py_ret].
      unfold mbind at 1, Py_bind at 1. rewrite print_run.
      change (list_fmap _ _ ?f rows) with (f <$> rows).
      rewrite Hrun, logged_logged. reflexivity.
    + cbn. now rewrite Hlen.
    + intros [|j] loc' addr' Hj.
      * cbn in Hj. injection Hj as <- <-. cbn [lookup list_lookup].
        rewrite Nat.add_0_r. reflexivity.
      * cbn in Hj. specialize (Hlines j loc' addr' Hj).
        replace (i + S j + 1) with (S i + j + 1) by lia. exact Hlines.
Qed.

Lemma lengths_of_text (rows : list (pystr * pystr)) :
  List.map (fun sv => len (location sv))
    ((fun r => {| location := VStr r.1; address := r.2 |}) <$> rows)
  = length <$> rows.*1.
Proof.
  induction rows as [|[loc addr] rows IH]; [reflexivity|].
  cbn. f_equal. exact IH.
Qed.

(** Whatever the servers: [print_servers_list] only prints. *)
Lemma print_rows_console (servers : list server) :
  forall i w1 w2 (w : World M),
  exists evs r,
    print_rows i servers w1 w2 w = (logged w evs, r)
    /\ Forall (fun e => is_console e = true) evs.
Proof.
  induction servers as [|sv servers IH]; intros i w1 w2 w; cbn [print_rows].
  - exists [], (Ok tt). unfold logged. rewrite app_nil_r. destruct w.
    split; [reflexivity|constructor].
  - unfold mbind at 1, Py_bind at 1.
    destruct (location sv) as [s|tags]; cbn [call_ljust mret Py_ret raise].
    + unfold mbind at 1, Py_bind at 1. rewrite print_run.
      destruct (IH (S i) w1 w2 (logged w [EvWrite
                  (ljust (str_of_nat (i + 1)) w1 ++ TAB ++ ljust s w2 ++ TAB
                   ++ address sv)])) as (evs & r & -> & Hevs).
      eexists (_ :: evs), r. rewrite logged_logged.
      split; [reflexivity|]. now constructor.
    + exists [], (Raise AttributeError). unfold logged. rewrite app_nil_r.
      destruct w. split; [reflexivity|constructor].
Qed.

Lemma print_servers_list_console (servers : list server) (w : World M) :
  exists evs r,
    print_servers_list servers w = (logged w evs, r)
    /\ Forall (fun e => is_console e = true) evs.
Proof.
  unfold print_servers_list. cbv zeta. unfold mbind at 1, Py_bind at 1.
  destruct servers as [|sv servers]; cbn [List.map max_of raise mret Py_ret].
  - exists [], (Raise ValueError). unfold logged. rewrite app_nil_r.
    destruct w. split; [reflexivity|constructor].
  - unfold mbind at 1, Py_bind at 1. rewrite print_run.
    match goal with
    | |- context [print_rows ?i ?l ?a ?b ?w'] =>
        destruct (print_rows_console l i a b w') as (evs & r & -> & Hevs)
    end.
    eexists (_ :: evs), r. rewrite logged_logged.
    split; [reflexivity|]. now constructor.
Qed.
End Table.

(** X4: for a non-empty list of servers with text locations the table is the
    header and one line per server, in order and numbered from 1.  The
    Location field of every server line has the width of the longest
    location; the header's Location field is that wide only when a location
    has 8 characters or more, otherwise it keeps its own 8. *)
Theorem print_servers_list_table
  {M : Type} {T : ExternalTool M}
  (rows : list (pystr * pystr)) (w : World M) :
  rows <> [] ->
  let width := max_list (length <$> rows.*1) in
  exists lines,
    print_servers_list
      ((fun r => {| location := VStr r.1; address := r.2 |}) <$> rows) w
    = (logged w
         (EvWrite (py "Number" ++ TAB ++ ljust (py "Location") width ++ TAB
                   ++ py "Address")
          :: (EvWrite <$> lines)),
       Ok tt)
    /\ length (ljust (py "Location") width) = Nat.max 8 width
    /\ length lines = length rows
    /\ forall i loc addr,
         rows !! i = Some (loc, addr) ->
         exists field,
           lines !! i
           = Some (ljust (str_of_nat (i + 1)) 6 ++ TAB ++ field ++ TAB ++ addr)
           /\ length field = width
           /\ loc `prefix_of` field.
Proof.
  intros Hne width.
  assert (Hw : forall loc addr, (loc, addr) ∈ rows -> (length loc <= width)%nat).
  { intros loc addr Hin. apply max_list_elem_of_le.
    apply list_elem_of_fmap. exists loc. split; [reflexivity|].
    apply list_elem_of_fmap. now exists (loc, addr). }
  unfold print_servers_list. cbv zeta.
  rewrite lengths_of_text.
  assert (Hmax : max_of (length <$> rows.*1) w = (w, Ok width)).
  { unfold width. destruct rows as [|[loc addr] rows]; [congruence|].
    cbn [fmap list_fmap fst]. unfold max_of. rewrite foldl_max_list.
    reflexivity. }
  rewrite (bind_ok _ _ _ _ _ Hmax).
  unfold mbind at 1, Py_bind at 1. rewrite print_run.
  destruct (print_rows_text rows (length (py "Number")) width Hw 0
              (logged w [EvWrite (ljust (py "Number") (length (py "Number"))
                                  ++ TAB ++ ljust (py "Location") width ++ TAB
                                  ++ py "Address")]))
    as (lines & -> & Hlen & Hlines).
  exists lines. rewrite logged_logged. split; [reflexivity|].
  split; [|split; [exact Hlen|]].
  - unfold ljust. rewrite length_app, length_replicate.
    change (length (py "Location")) with 8%nat. lia.
  - intros i loc addr Hi. eexists. split; [exact (Hlines i loc addr Hi)|].
    split; [|now apply prefix_app_r].
    rewrite length_app, length_replicate.
    specialize (Hw loc addr (list_elem_of_lookup_2 _ _ _ Hi)). lia.
Qed.

(** ** The fetcher and the world *)

Section FetcherMore.
Context {M : Type} {T : ExternalTool M}.



Lemma get_servers_list_no_answer url (w : World M) :
  web w url = None ->
  get_servers_list url w = (logged w [EvGet url], Raise RequestException).
Proof.
  intros Hweb.
  unfold get_servers_list, fetch_soup, mbind, Py_bind, emit, response.
  cbn [host stdin web log logged]. now rewrite Hweb.
Qed.
End FetcherMore.

(** X5: [get_servers_list] does one GET and nothing else to the world: it
    runs no tool, reads no input, prints nothing.  It fails with
    [RequestException] exactly when the request has no answer, and
    otherwise only with [AttributeError], [IndexError] or [TypeError]. *)
Theorem get_servers_list_frame
  {M : Type} {T : ExternalTool M} (url : pystr) (w : World M) :
  exists r,
    get_servers_list url w = (logged w [EvGet url], r)
    /\ (web w url = None <-> r = Raise RequestException)
    /\ forall e, r = Raise e -> e = RequestException \/ e ∈ parse_errors.
Proof.
  destruct (web w url) as [soup|] eqn:Hweb.
  - rewrite (get_servers_list_unfold _ _ _ Hweb).
    assert (Hne : RequestException ∉ parse_errors).
    { unfold parse_errors. rewrite !elem_of_cons, elem_of_nil.
      intros [H|[H|[H|[]]]]; discriminate H. }
    destruct (find soup (py "table")) as [table|].
    2:{ eexists. split; [reflexivity|]. split.
        - split; discriminate.
        - intros e [= <-]. right. unfold parse_errors. set_solver. }
    destruct (find table (py "tbody")) as [tbody|].
    2:{ eexists. split; [reflexivity|]. split.
        - split; discriminate.
        - intros e [= <-]. right. unfold parse_errors. set_solver. }
    destruct (rows_cases (find_all tbody (py "tr")) [] (logged w [EvGet url]))
      as (r & -> & Hr).
    exists r. split; [reflexivity|]. split.
    + split; [discriminate|]. intros ->. contradiction.
    + intros e ->. now right.
  - exists (Raise RequestException). split.
    + now apply get_servers_list_no_answer.
    + split; [split; reflexivity|]. intros e [= <-]. now left.
Qed.


(** ** Guarded connect and disconnect *)

(** X7: [connect(only_if_disconnected=True)] asks for the state first.  When
    the query fails it raises with the exit code of the query; when a state
    is reported it does nothing more (the tool is not asked to bring the
    connection up); when none is reported it goes on as [connect()]. *)
Theorem connect_only_if_disconnected
  {M : Type} {T : ExternalTool M} (self : VpnConnection) (w : World M)
  (h : M) (rc : Z) (out : bytes) :
  exec (argv_state (name self)) (host w) = (h, (rc, out)) ->
  let w1 := mkWorld h (stdin w) (web w)
              (log w ++ [EvRun (argv_state (name self)) rc]) in
  connect self true w
  = if negb (rc =? 0)%Z then (w1, Raise (CalledProcessError rc))
    else match out with
         | _ :: _ => (w1, Ok tt)
         | [] => connect self false w1
         end.
Proof.
  intros Hq w1. unfold connect at 1. cbn [negb].
  unfold mbind at 1, Py_bind at 1. unfold mbind at 1, Py_bind at 1.
  rewrite (is_connected_run _ _ _ _ _ Hq). fold w1.
  destruct (rc =? 0)%Z; cbn [negb]; [|reflexivity].
  destruct out as [|b out]; reflexivity.
Qed.

(** X8: [disconnect(only_if_connected=True)] asks for the state first.  When
    the query fails it raises with the exit code of the query; when no state
    is reported it does nothing more (the tool is not asked to bring the
    connection down); when one is reported it goes on as [disconnect()]. *)
Theorem disconnect_only_if_connected
  {M : Type} {T : ExternalTool M} (self : VpnConnection) (w : World M)
  (h : M) (rc : Z) (out : bytes) :
  exec (argv_state (name self)) (host w) = (h, (rc, out)) ->
  let w1 := mkWorld h (stdin w) (web w)
              (log w ++ [EvRun (argv_state (name self)) rc]) in
  disconnect self true w
  = if negb (rc =? 0)%Z then (w1, Raise (CalledProcessError rc))
    else match out with
         | [] => (w1, Ok tt)
         | _ :: _ => disconnect self false w1
         end.
Proof.
  intros Hq w1. unfold disconnect at 1. cbn [negb].
  unfold mbind at 1, Py_bind at 1.
  rewrite (is_connected_run _ _ _ _ _ Hq). fold w1.
  destruct (rc =? 0)%Z; cbn [negb]; [|reflexivity].
  destruct out as [|b out]; reflexivity.
Qed.

(** ** The command, mode by mode *)

Section Modes.
Context {M : Type} {T : ExternalTool M} {U : UnicodeData}.

(** [restart] with a delay that [sleep] accepts: it touches neither the
    input nor the web, and it ends well or with the exit code of a run. *)
Lemma restart_world (self : VpnConnection) (w : World M) :
  (0 <= _restart_delay_seconds self <= 9223372036)%Z ->
  exists h evs r,
    restart self w = (mkWorld h (stdin w) (web w) (log w ++ evs), r)
    /\ Forall (fun e => is_unattended e = true) evs
    /\ (r = Ok tt \/ exists rc, r = Raise (CalledProcessError rc)).
Proof.
  intros Hdelay. unfold restart.
  destruct (exec (argv_state (name self)) (host w)) as [h1 [rc1 out1]] eqn:Hq.
  unfold mbind at 1, Py_bind at 1. rewrite (is_connected_run _ _ _ _ _ Hq).
  destruct (rc1 =? 0)%Z.
  2:{ eexists _, _, _. split; [reflexivity|]. split; [repeat constructor|eauto]. }
  destruct (0 <? length out1)%nat.
  - unfold mbind at 1, Py_bind at 1. unfold mbind at 1, Py_bind at 1.
    destruct (exec (argv_down (name self)) h1) as [h2 [rc2 out2]] eqn:Hd.
    erewrite disconnect_run by exact Hd.
    destruct (rc2 =? 0)%Z.
    2:{ eexists _, _, _. cbn [host stdin web log]. rewrite <- app_assoc.
        split; [reflexivity|]. split; [repeat constructor|eauto]. }
    rewrite sleep_run by exact Hdelay.
    destruct (exec (argv_up (name self)) h2) as [h3 [rc3 out3]] eqn:Hu.
    erewrite connect_run by exact Hu.
    eexists _, _, _. cbn [host stdin web log logged]. rewrite <- !app_assoc.
    split; [reflexivity|]. split; [repeat constructor|].
    destruct (rc3 =? 0)%Z; eauto.
  - unfold mbind at 1, Py_bind at 1. cbn [mret Py_ret].
    destruct (exec (argv_up (name self)) h1) as [h3 [rc3 out3]] eqn:Hu.
    erewrite connect_run by exact Hu.
    eexists _, _, _. cbn [host stdin web log]. rewrite <- !app_assoc.
    split; [reflexivity|]. split; [repeat constructor|].
    destruct (rc3 =? 0)%Z; eauto.
Qed.

Lemma when_run (b : bool) (line : pystr) (w : World M) :
  when b (print line) w
  = (logged w (if b then [EvWrite line] else []), Ok tt).
Proof.
  destruct b; [reflexivity|]. unfold when, logged. cbn. rewrite app_nil_r.
  now destruct w.
Qed.

Lemma script_unfold (arguments : Namespace) (w : World M) :
  script arguments w
  = match main_try arguments w with
    | (w', Ok status) => (w', Z.land status 255)
    | (w', Raise (CalledProcessError returncode)) =>
        (w', Z.land returncode 255)
    | (w', Raise _) => (w', 1%Z)
    end.
Proof.
  unfold script, main, try_except.
  destruct (main_try arguments w) as [w1 [status|[]]]; reflexivity.
Qed.
End Modes.

(** X9: with the option to disconnect, the script does that and nothing
    else, whatever the other options say: it asks for the state; a failed
    query ends it with the query's exit code; without a reported state it
    ends with status 0 and the tool is not run again; with one, the
    connection is brought down and the exit code of that run is the status.
    The web is not fetched and no input is read. *)
Theorem script_disconnect_mode
  {M : Type} {T : ExternalTool M} {U : UnicodeData}
  (arguments : Namespace) (w : World M) (h : M) (rc : Z) (out : bytes) :
  arg_disconnect arguments = true ->
  let nm := arg_connection arguments in
  exec (argv_state nm) (host w) = (h, (rc, out)) ->
  let pre := if arg_verbose arguments
             then [EvWrite (py "Turning off " ++ nm ++ py "...")] else [] in
  script arguments w
  = if negb (rc =? 0)%Z
    then (mkWorld h (stdin w) (web w) (log w ++ pre ++ [EvRun (argv_state nm) rc]),
          Z.land rc 255)
    else match out with
         | [] =>
             (mkWorld h (stdin w) (web w)
                (log w ++ pre ++ [EvRun (argv_state nm) 0]), 0%Z)
         | _ :: _ =>
             let '(h2, (rc2, _)) := exec (argv_down nm) h in
             (mkWorld h2 (stdin w) (web w)
                (log w ++ pre ++ [EvRun (argv_state nm) 0; EvRun (argv_down nm) rc2]),
              Z.land rc2 255)
         end.
Proof.
  intros Hd nm Hq pre. rewrite script_unfold. unfold main_try. rewrite Hd.
  cbv zeta. unfold mbind at 1, Py_bind at 1. rewrite when_run. fold nm pre.
  unfold mbind at 1, Py_bind at 1. unfold disconnect. cbn [negb].
  unfold mbind at 1, Py_bind at 1.
  erewrite is_connected_run by (cbn [name new_VpnConnection host logged]; exact Hq).
  cbn [name new_VpnConnection host stdin web log logged]. rewrite <- app_assoc.
  destruct (Z.eqb_spec rc 0) as [->|Hrc]; cbn [negb]; [|reflexivity].
  destruct out as [|b out]; cbn [length Nat.ltb Nat.leb].
  - reflexivity.
  - unfold mbind at 1, Py_bind at 1.
    destruct (exec (argv_down nm) h) as [h2 [rc2 out2]] eqn:Hdown.
    erewrite check_output_run by (cbn [host]; exact Hdown).
    cbn [host stdin web log]. rewrite <- !app_assoc. cbn [app].
    destruct (Z.eqb_spec rc2 0) as [->|Hrc2]; reflexivity.
Qed.

Section UrlMode.
Context {M : Type} {T : ExternalTool M} {U : UnicodeData}.

Lemma main_try_url (arguments : Namespace) (w : World M) (url : pystr)
  (h : M) (rc : Z) (out : bytes) :
  arg_disconnect arguments = false ->
  arg_list arguments = false ->
  arg_url arguments = Some url ->
  let nm := arg_connection arguments in
  exec (argv_mod nm (py "remote") url) (host w) = (h, (rc, out)) ->
  let pre := if arg_verbose arguments
             then [EvWrite (py "Connecting " ++ nm ++ py " to " ++ url
                            ++ py "...")]
             else [] in
  let w1 := mkWorld h (stdin w) (web w)
              (log w ++ pre ++ [EvRun (argv_mod nm (py "remote") url) rc]) in
  main_try arguments w
  = if (rc =? 0)%Z
    then (restart (new_VpnConnection nm) ;;
          when (arg_verbose arguments) (print (py "Connected")) ;;
          mret 0%Z) w1
    else (w1, Raise (CalledProcessError rc)).
Proof.
  intros Hd Hl Hu nm Hmod pre w1.
  unfold main_try. rewrite Hd, Hl, Hu. cbv zeta.
  unfold mbind at 1, Py_bind at 1. cbn [mret Py_ret fst snd].
  unfold mbind at 1, Py_bind at 1. rewrite when_run. fold nm pre.
  unfold mbind at 1, Py_bind at 1.
  unfold set_remote_address, set_data_item.
  unfold mbind at 1, Py_bind at 1.
  erewrite check_output_run by (cbn [name new_VpnConnection host logged]; exact Hmod).
  cbn [name new_VpnConnection host stdin web log logged]. fold nm.
  rewrite <- app_assoc. fold w1.
  destruct (rc =? 0)%Z; reflexivity.
Qed.
End UrlMode.

(** X10: with an address on the command line the script fetches nothing and
    asks nothing: apart from its messages, the first thing it does is write
    the address to the profile.  When that run fails, the connection is not
    restarted and the run's exit code is the exit status. *)
Theorem script_url_mode
  {M : Type} {T : ExternalTool M} {U : UnicodeData}
  (arguments : Namespace) (w : World M) (url : pystr)
  (h : M) (rc : Z) (out : bytes) :
  arg_disconnect arguments = false ->
  arg_list arguments = false ->
  arg_url arguments = Some url ->
  let nm := arg_connection arguments in
  exec (argv_mod nm (py "remote") url) (host w) = (h, (rc, out)) ->
  let pre := if arg_verbose arguments
             then [EvWrite (py "Connecting " ++ nm ++ py " to " ++ url
                            ++ py "...")]
             else [] in
  exists h' evs,
    (script arguments w).1
    = mkWorld h' (stdin w) (web w)
        (log w ++ pre ++ EvRun (argv_mod nm (py "remote") url) rc :: evs)
    /\ Forall (fun e => is_unattended e = true) evs
    /\ (rc <> 0%Z ->
        h' = h /\ evs = [] /\ (script arguments w).2 = Z.land rc 255).
Proof.
  intros Hd Hl Hu nm Hmod pre.
  rewrite script_unfold, (main_try_url _ _ _ _ _ _ Hd Hl Hu Hmod).
  fold nm pre.
  destruct (Z.eqb_spec rc 0) as [->|Hrc].
  2:{ exists h, []. cbn [fst snd]. repeat split. constructor. }
  unfold mbind at 1, Py_bind at 1.
  match goal with
  | |- context [restart ?c ?w1] =>
      destruct (restart_world c w1) as (h' & evs & r & -> & Hevs & Hr);
        [cbn; unfold DEFAULT_RESTART_DELAY_SECONDS; lia|]
  end.
  cbn [host stdin web log]. rewrite <- !app_assoc.
  destruct Hr as [-> | [rc' ->]].
  - unfold mbind at 1, Py_bind at 1. rewrite when_run.
    cbn [mret Py_ret fst snd logged host stdin web log].
    exists h', (evs ++ (if arg_verbose arguments
                        then [EvWrite (py "Connected")] else [])).
    split; [unfold logged; cbn [host stdin web log];
            now rewrite <- !app_assoc|].
    split; [|congruence].
    apply Forall_app. split; [exact Hevs|].
    destruct (arg_verbose arguments); repeat constructor.
  - exists h', evs. cbn [fst snd]. split; [reflexivity|].
    split; [exact Hevs|congruence].
Qed.

Section ModesMore.
Context {M : Type} {T : ExternalTool M} {U : UnicodeData}.

Lemma get_servers_list_world url (w : World M) :
  exists r,
    get_servers_list url w = (logged w [EvGet url], r)
    /\ forall e, r = Raise e -> is_CalledProcessError e = false.
Proof.
  destruct (web w url) as [soup|] eqn:Hweb.
  - rewrite (get_servers_list_unfold _ _ _ Hweb).
    destruct (find soup (py "table")) as [table|].
    2:{ eexists. split; [reflexivity|]. now intros e [= <-]. }
    destruct (find table (py "tbody")) as [tbody|].
    2:{ eexists. split; [reflexivity|]. now intros e [= <-]. }
    destruct (rows_cases (find_all tbody (py "tr")) [] (logged w [EvGet url]))
      as (r & -> & Hr).
    exists r. split; [reflexivity|]. intros e ->.
    unfold parse_errors in Hr. rewrite !elem_of_cons, elem_of_nil in Hr.
    destruct Hr as [->|[->|[->|[]]]]; reflexivity.
  - rewrite (get_servers_list_no_answer _ _ Hweb).
    eexists. split; [reflexivity|]. now intros e [= <-].
Qed.

Lemma print_rows_raises (servers : list server) :
  forall i w1 w2 (w w' : World M) e,
    print_rows i servers w1 w2 w = (w', Raise e) -> e = AttributeError.
Proof.
  induction servers as [|sv servers IH]; intros i w1 w2 w w' e;
    cbn [print_rows]; [discriminate|].
  unfold mbind at 1, Py_bind at 1.
  destruct (location sv) as [s|tags]; cbn [call_ljust mret Py_ret raise].
  - unfold mbind at 1, Py_bind at 1. rewrite print_run. apply IH.
  - now intros [= _ <-].
Qed.

Lemma print_servers_list_raises (servers : list server) (w w' : World M) e :
  print_servers_list servers w = (w', Raise e) ->
  is_CalledProcessError e = false.
Proof.
  unfold print_servers_list. cbv zeta. unfold mbind at 1, Py_bind at 1.
  destruct servers as [|sv servers]; cbn [List.map max_of raise mret Py_ret].
  - now intros [= _ <-].
  - unfold mbind at 1, Py_bind at 1. rewrite print_run.
    intros H. now rewrite (print_rows_raises _ _ _ _ _ _ _ H).
Qed.

Lemma bind_inv {A B} (c : Py M A) (f : A -> Py M B) w w' b :
  (c ≫= f) w = (w', Ok b) ->
  exists w1 a, c w = (w1, Ok a) /\ f a w1 = (w', Ok b).
Proof.
  unfold mbind, Py_bind. destruct (c w) as [w1 [a|e]]; [eauto|discriminate].
Qed.

(** [main]'s [try] block returns nothing but 0. *)
Lemma main_try_returns (arguments : Namespace) (w w' : World M) status :
  main_try arguments w = (w', Ok status) -> status = 0%Z.
Proof.
  unfold main_try. cbv zeta.
  destruct (arg_disconnect arguments); [|destruct (arg_list arguments)];
    intros H;
    repeat (apply bind_inv in H as (? & ? & _ & H));
    now injection H as _ <-.
Qed.

Lemma failures_inv rc evs :
  In rc (failures evs) -> exists argv, In (EvRun argv rc) evs /\ rc <> 0%Z.
Proof.
  unfold failures. rewrite in_flat_map. intros (e & Hin & Hrc).
  destruct e as [argv rc'| | | |]; try contradiction.
  destruct (Z.eqb_spec rc' 0); [contradiction|].
  destruct Hrc as [<-|[]]. eauto.
Qed.
End ModesMore.

(** X11: once [parse_arguments()] has returned a namespace, whatever it
    holds, the exit status is 0, or 1, or the low eight bits of the non-zero
    exit code of a run of the tool that is in the log.  So, for a command
    line that has been accepted, a status other than 0 and 1 always goes
    back to a failed run. *)
Theorem script_exit_status_cases
  {M : Type} {T : ExternalTool M} {U : UnicodeData}
  (arguments : Namespace) (w : World M) :
  (script arguments w).2 = 0%Z
  \/ (script arguments w).2 = 1%Z
  \/ exists evs argv rc,
       log (script arguments w).1 = log w ++ evs
       /\ In (EvRun argv rc) evs
       /\ rc <> 0%Z
       /\ (script arguments w).2 = Z.land rc 255.
Proof.
  destruct (accounts_main_try arguments w) as (evs & Hlog & Hfail).
  rewrite script_unfold.
  destruct (main_try arguments w) as [w1 [status|e]] eqn:E; cbn [fst snd] in *.
  - left. now rewrite (main_try_returns _ _ _ _ E).
  - destruct e as [rc| | | | | | | | | |]; try (right; left; reflexivity).
    right. right. cbn [fst snd].
    destruct (failures_inv rc evs) as (argv & Hin & Hrc);
      [rewrite Hfail; now left|].
    now exists evs, argv, rc.
Qed.

(** X12: with the option to list, and not the one to disconnect, the script
    only fetches and prints: the tool is never run, no input is read, the
    exit status is 0 or 1, and it is 1 when the request has no answer. *)
Theorem script_list_mode
  {M : Type} {T : ExternalTool M} {U : UnicodeData}
  (arguments : Namespace) (w : World M) :
  arg_disconnect arguments = false ->
  arg_list arguments = true ->
  exists evs,
    (script arguments w).1 = logged w evs
    /\ Forall (fun e => is_run e = false) evs
    /\ In (EvGet (arg_server_list_url arguments)) evs
    /\ ((script arguments w).2 = 0%Z \/ (script arguments w).2 = 1%Z)
    /\ (web w (arg_server_list_url arguments) = None ->
        (script arguments w).2 = 1%Z).
Proof.
  intros Hd Hl. rewrite script_unfold.
  assert (E : exists evs r,
             main_try arguments w = (logged w evs, r)
             /\ Forall (fun e => is_run e = false) evs
             /\ In (EvGet (arg_server_list_url arguments)) evs
             /\ (forall e, r = Raise e -> is_CalledProcessError e = false)
             /\ (web w (arg_server_list_url arguments) = None ->
                 exists e, r = Raise e)).
  { unfold main_try. rewrite Hd, Hl.
    cbv zeta. unfold mbind at 1, Py_bind at 1. rewrite when_run.
    set (pre := if arg_verbose arguments then _ else _).
    assert (Hpre : Forall (fun e => is_run e = false) pre)
      by (unfold pre; destruct (arg_verbose arguments); repeat constructor).
    unfold mbind at 1, Py_bind at 1.
    destruct (get_servers_list_world (arg_server_list_url arguments)
                (logged w pre)) as (r & Hrun & Hr).
    pose proof (get_servers_list_no_answer (arg_server_list_url arguments)
                  (logged w pre)) as Hnone.
    rewrite Hrun in *. rewrite logged_logged.
    destruct r as [servers|e].
    - unfold mbind at 1, Py_bind at 1.
      destruct (print_servers_list_console servers
                  (logged w (pre ++ [EvGet (arg_server_list_url arguments)])))
        as (evs & r & Hp & Hevs).
      pose proof (print_servers_list_raises servers
                    (logged w (pre ++ [EvGet (arg_server_list_url arguments)])))
        as Hraise.
      rewrite Hp in *. rewrite logged_logged.
      exists ((pre ++ [EvGet (arg_server_list_url arguments)]) ++ evs).
      assert (Hall : Forall (fun e => is_run e = false)
                       ((pre ++ [EvGet (arg_server_list_url arguments)]) ++ evs)).
      { apply Forall_app. split; [apply Forall_app; split;
          [exact Hpre|repeat constructor]|].
        eapply Forall_impl; [exact Hevs|]. now intros []. }
      assert (Hget : In (EvGet (arg_server_list_url arguments))
                       ((pre ++ [EvGet (arg_server_list_url arguments)]) ++ evs)).
      { apply in_or_app. left. apply in_or_app. right. now left. }
      destruct r as [[]|e].
      + exists (Ok 0%Z). split; [reflexivity|]. repeat split; try assumption.
        * discriminate.
        * intros Hweb. specialize (Hnone Hweb). discriminate.
      + exists (Raise e). split; [reflexivity|]. repeat split; try assumption.
        * intros e' [= <-]. exact (Hraise _ e eq_refl).
        * eauto.
    - exists (pre ++ [EvGet (arg_server_list_url arguments)]), (Raise e).
      split; [reflexivity|]. repeat split.
      + apply Forall_app. split; [exact Hpre|repeat constructor].
      + apply in_or_app. right. now left.
      + intros e' [= <-]. exact (Hr e eq_refl).
      + eauto. }
  destruct E as (evs & r & E & Hruns & Hget & Hr & Hnone).
  exists evs. rewrite E. destruct r as [status|e].
  - rewrite (main_try_returns _ _ _ _ E). cbn [fst snd].
    repeat split; try assumption; [now left|].
    intros Hweb. destruct (Hnone Hweb) as [e He]. discriminate.
  - specialize (Hr e eq_refl).
    destruct e; try discriminate; cbn [fst snd];
      repeat split; try assumption; now right.
Qed.

Section Interactive.
Context {M : Type} {T : ExternalTool M} {U : UnicodeData}.

Lemma consumed_logged (w : World M) evs rest evs' :
  consumed (logged w evs) rest evs' = consumed w rest (evs ++ evs').
Proof. unfold logged, consumed. cbn. now rewrite <- app_assoc. Qed.

(** The last steps of [main]: announce, write the address, restart. *)
Lemma connect_steps (nm address : pystr) (verbose : bool) (w : World M) :
  exists h rc evs r,
    (when verbose
       (print (py "Connecting " ++ nm ++ py " to " ++ address ++ py "...")) ;;
     set_remote_address (new_VpnConnection nm) address ;;
     restart (new_VpnConnection nm) ;;
     when verbose (print (py "Connected")) ;;
     mret 0%Z) w
    = (mkWorld h (stdin w) (web w)
         (log w
          ++ (if verbose
              then [EvWrite (py "Connecting " ++ nm ++ py " to " ++ address
                             ++ py "...")]
              else [])
          ++ EvRun (argv_mod nm (py "remote") address) rc :: evs),
       r)
    /\ Forall (fun e => is_unattended e = true) evs.
Proof.
  unfold mbind at 1, Py_bind at 1. rewrite when_run.
  set (pre := if verbose then _ else _).
  unfold mbind at 1, Py_bind at 1.
  unfold set_remote_address, set_data_item.
  unfold mbind at 1, Py_bind at 1.
  destruct (exec (argv_mod nm (py "remote") address) (host w))
    as [h [rc out]] eqn:Hmod.
  erewrite check_output_run by (cbn [name new_VpnConnection host logged]; exact Hmod).
  cbn [name new_VpnConnection host stdin web log logged].
  rewrite <- app_assoc.
  destruct (rc =? 0)%Z.
  2:{ exists h, rc, [], (Raise (CalledProcessError rc)).
      split; [reflexivity|constructor]. }
  cbn [mret Py_ret]. unfold mbind at 1, Py_bind at 1.
  match goal with
  | |- context [restart ?c ?w1] =>
      destruct (restart_world c w1) as (h' & evs & r & -> & Hevs & Hr);
        [cbn; unfold DEFAULT_RESTART_DELAY_SECONDS; lia|]
  end.
  cbn [host stdin web log]. rewrite <- !app_assoc.
  destruct r as [[]|e].
  - unfold mbind at 1, Py_bind at 1. rewrite when_run.
    exists h', rc, (evs ++ (if verbose then [EvWrite (py "Connected")] else [])),
      (Ok 0%Z).
    split; [unfold logged; cbn [host stdin web log mret Py_ret];
            now rewrite <- !app_assoc|].
    apply Forall_app. split; [exact Hevs|]. destruct verbose; repeat constructor.
  - exists h', rc, evs, (Raise e). split; [reflexivity|exact Hevs].
Qed.
End Interactive.

(** X13: without an address and without the options to list or disconnect,
    the script runs the tool only after a server has been chosen.  Either
    fetching, printing or choosing fails, and the script ends with status 1
    without a single run of the tool; or the first run writes, as the remote
    address, the address of a record of the fetched list, right after the
    message that announces it. *)
Theorem script_interactive_mode
  {M : Type} {T : ExternalTool M} {U : UnicodeData}
  (arguments : Namespace) (w : World M) :
  arg_disconnect arguments = false ->
  arg_list arguments = false ->
  arg_url arguments = None ->
  let nm := arg_connection arguments in
  let fetched :=
    (get_servers_list (arg_server_list_url arguments)
       (logged w [EvWrite (py "Fetching servers list...")])).2 in
  (exists rest evs,
      script arguments w = (consumed w rest evs, 1%Z)
      /\ Forall (fun e => is_run e = false) evs)
  \/ (exists servers sv h rest evs1 rc evs2,
         fetched = Ok servers
         /\ sv ∈ servers
         /\ (script arguments w).1
            = mkWorld h rest (web w)
                (log w ++ evs1
                 ++ [EvWrite (py "Connecting " ++ nm ++ py " to "
                              ++ address sv ++ py "...");
                     EvRun (argv_mod nm (py "remote") (address sv)) rc]
                 ++ evs2)
         /\ Forall (fun e => is_run e = false) evs1
         /\ Forall (fun e => is_unattended e = true) evs2).
Proof.
  intros Hd Hl Hu nm fetched. rewrite script_unfold.
  remember (main_try arguments w) as res eqn:Hres.
  assert (E :
    (exists rest evs e,
        res = (consumed w rest evs, Raise e)
        /\ is_CalledProcessError e = false
        /\ Forall (fun e => is_run e = false) evs)
    \/ (exists servers sv h rest evs1 rc evs2 r,
           fetched = Ok servers
           /\ sv ∈ servers
           /\ res
              = (mkWorld h rest (web w)
                   (log w ++ evs1
                    ++ [EvWrite (py "Connecting " ++ nm ++ py " to "
                                 ++ address sv ++ py "...");
                        EvRun (argv_mod nm (py "remote") (address sv)) rc]
                    ++ evs2), r)
           /\ Forall (fun e => is_run e = false) evs1
           /\ Forall (fun e => is_unattended e = true) evs2)).
  { revert Hres.
    unfold main_try. rewrite Hd, Hl, Hu. cbv zeta. fold nm.
    unfold mbind at 1, Py_bind at 1.
    unfold mbind at 1, Py_bind at 1. rewrite print_run.
    unfold mbind at 1, Py_bind at 1.
    destruct (get_servers_list_world (arg_server_list_url arguments)
                (logged w [EvWrite (py "Fetching servers list...")]))
      as (r1 & Hrun & Hr1).
    unfold fetched. rewrite Hrun. cbn [snd]. rewrite logged_logged.
    destruct r1 as [servers|e].
    2:{ intros ->. left. eexists (stdin w), _, e. split; [reflexivity|].
        split; [now apply Hr1|repeat constructor]. }
    unfold mbind at 1, Py_bind at 1.
    match goal with
    | |- context [print_servers_list servers ?w1] =>
        destruct (print_servers_list_console servers w1)
          as (evs_p & r2 & Hp & Hevs_p);
        pose proof (print_servers_list_raises servers w1) as Hr2
    end.
    rewrite Hp in *. rewrite logged_logged.
    assert (Hquiet : Forall (fun e => is_run e = false)
                       (([EvWrite (py "Fetching servers list...")]
                         ++ [EvGet (arg_server_list_url arguments)]) ++ evs_p)).
    { apply Forall_app. split; [repeat constructor|].
      eapply Forall_impl; [exact Hevs_p|]. now intros []. }
    destruct r2 as [[]|e].
    2:{ intros ->. left. eexists (stdin w), _, e. split; [reflexivity|].
        split; [exact (Hr2 _ e eq_refl)|exact Hquiet]. }
    unfold mbind at 1, Py_bind at 1.
    unfold get_chosen_server.
    match goal with
    | |- context [choose ?f servers ?w1] =>
        destruct (choose_cases servers f w1)
          as (rest & evs_c & r3 & -> & _ & Hevs_c & Hr3)
    end.
    assert (Hquiet' : Forall (fun e => is_run e = false)
                       ((([EvWrite (py "Fetching servers list...")]
                          ++ [EvGet (arg_server_list_url arguments)]) ++ evs_p)
                        ++ evs_c)).
    { apply Forall_app. split; [exact Hquiet|].
      eapply Forall_impl; [exact Hevs_c|]. now intros []. }
    rewrite consumed_logged.
    destruct r3 as [sv|e].
    2:{ destruct Hr3 as [-> _]. intros ->. left. eexists rest, _, EOFError.
        split; [reflexivity|]. split; [reflexivity|exact Hquiet']. }
    cbn [mret Py_ret fst snd].
    match goal with
    | |- context [(when true ?p ≫= ?k) ?w1] =>
        destruct (connect_steps nm (address sv) true w1)
          as (h & rc & evs2 & r & -> & Hevs2)
    end.
    intros ->. right.
    exists servers, sv, h, rest,
      ((([EvWrite (py "Fetching servers list...")]
         ++ [EvGet (arg_server_list_url arguments)]) ++ evs_p) ++ evs_c),
      rc, evs2, r.
    split; [reflexivity|]. split; [exact Hr3|].
    split; [|split; [exact Hquiet'|exact Hevs2]].
    unfold consumed. cbn [host stdin web log].
    now rewrite <- !app_assoc. }
  clear Hres.
  destruct E as [(rest & evs & e & -> & He & Hevs)
                | (servers & sv & h & rest & evs1 & rc & evs2 & r & Hf & Hsv
                   & -> & H1 & H2)].
  - left. exists rest, evs. destruct e; try discriminate; now split.
  - right. exists servers, sv, h, rest, evs1, rc, evs2.
    repeat split; try assumption. now destruct r as [s|[]].
Qed.

(** ** Reading the data dictionary *)

Section Splitting.

Lemma startswith_app (p y : pystr) : startswith (p ++ y) p = true.
Proof.
  induction p as [|a p IH]; [now destruct y|].
  cbn [app startswith]. now rewrite N.eqb_refl, IH.
Qed.

Lemma split_go_skip (sep p y cur : pystr) :
  split_go sep (p ++ y) (length p) cur = split_go sep y 0 cur.
Proof.
  induction p as [|a p IH]; [reflexivity|exact IH].
Qed.

Lemma split_go_piece (sep x y : pystr) :
  sep <> [] ->
  forall cur,
    free sep x (sep ++ y) ->
    split_go sep (x ++ sep ++ y) 0 cur
    = (rev cur ++ x) :: split_go sep y 0 [].
Proof.
  intros Hsep. induction x as [|c x IH]; intros cur Hfree.
  - rewrite app_nil_r. destruct sep as [|a sep']; [congruence|].
    cbn [app split_go].
    change (a :: sep' ++ y) with ((a :: sep') ++ y).
    rewrite startswith_app.
    replace (length (a :: sep') - 1)%nat with (length sep') by (cbn; lia).
    now rewrite split_go_skip.
  - destruct Hfree as [Hc Hfree]. cbn [app split_go].
    cbn [app] in Hc. rewrite Hc, (IH _ Hfree). cbn [rev].
    now rewrite <- app_assoc.
Qed.

Lemma split_go_last (sep x : pystr) :
  forall cur, free sep x [] -> split_go sep x 0 cur = [rev cur ++ x].
Proof.
  induction x as [|c x IH]; intros cur Hfree.
  - cbn. now rewrite app_nil_r.
  - destruct Hfree as [Hc Hfree]. cbn [split_go].
    rewrite app_nil_r in Hc. rewrite Hc, (IH _ Hfree). cbn [rev].
    now rewrite <- app_assoc.
Qed.

Lemma free_app (sep x1 x2 tail : pystr) :
  free sep x1 (x2 ++ tail) -> free sep x2 tail -> free sep (x1 ++ x2) tail.
Proof.
  induction x1 as [|c x1 IH]; intros H1 H2; [exact H2|].
  destruct H1 as [Hc H1]. cbn [app free]. rewrite <- app_assoc.
  split; [exact Hc|now apply IH].
Qed.

(** No character of [x] is the first of the separator. *)
Lemma free_first (a : N) (sep' x tail : pystr) :
  Forall (fun c => c <> a) x -> free (a :: sep') x tail.
Proof.
  induction 1 as [|c x Hc Hx IH]; [exact I|].
  split; [|exact IH]. cbn [startswith app].
  destruct (N.eqb_spec a c) as [->|_]; [contradiction|reflexivity].
Qed.

(** No character of [x], nor the one after [x], is the second of the
    separator. *)
Lemma free_second (a b : N) (x tail : pystr) :
  Forall (fun c => c <> b) x -> head tail <> Some b ->
  free [a; b] x tail.
Proof.
  intros Hx Ht. induction Hx as [|c x Hc Hx IH]; [exact I|].
  split; [|exact IH]. cbn [startswith app].
  destruct (N.eqb_spec a c) as [_|_]; [|reflexivity]. cbn [andb].
  destruct x as [|d x']; cbn [app].
  - destruct tail as [|t tail']; [reflexivity|]. cbn [startswith].
    destruct (N.eqb_spec b t) as [->|_]; [now cbn in Ht|reflexivity].
  - cbn [startswith]. inversion Hx as [|? ? Hd _]; subst.
    destruct (N.eqb_spec b d) as [->|_]; [contradiction|reflexivity].
Qed.

Lemma clean_no_space (s : pystr) :
  clean s -> Forall (fun c => c <> SPACE) s.
Proof.
  intros [_ Hs]. eapply Forall_impl; [exact Hs|].
  intros c Hc ->. discriminate Hc.
Qed.

Lemma clean_ends (a m b : pystr) : clean a -> clean b -> ends_ok (a ++ m ++ b).
Proof.
  intros [Ha Fa] [Hb Fb]. split.
  - destruct a as [|c a']; [congruence|]. exists c, (a' ++ m ++ b).
    split; [reflexivity|]. now inversion Fa.
  - rewrite !rev_app_distr. apply Forall_rev in Fb.
    destruct (rev b) as [|d b'] eqn:E.
    + exfalso. apply Hb. rewrite <- (rev_involutive b), E. reflexivity.
    + exists d, (b' ++ rev m ++ rev a). split; [|now inversion Fb].
      now rewrite <- !app_assoc.
Qed.

Lemma ends_ok_app (a m b : pystr) : ends_ok a -> ends_ok b -> ends_ok (a ++ m ++ b).
Proof.
  intros [(c & a' & -> & Hc) _] [_ (d & b' & Hb & Hd)]. split.
  - exists c, (a' ++ m ++ b). now split.
  - rewrite !rev_app_distr, Hb. exists d, (b' ++ rev m ++ rev (c :: a')).
    split; [|exact Hd]. now rewrite <- !app_assoc.
Qed.

(** [strip] takes the final newline off and leaves the rest. *)
Lemma strip_newline (t : pystr) :
  ends_ok t -> strip (t ++ NetworkManager.NEWLINE) = t.
Proof.
  intros [(c & t' & -> & Hc) (d & r & Hr & Hd)].
  assert (H1 : lstrip ((c :: t') ++ NetworkManager.NEWLINE)
               = (c :: t') ++ NetworkManager.NEWLINE)
    by (cbn [app lstrip]; now rewrite Hc).
  assert (H2 : lstrip (rev NetworkManager.NEWLINE ++ rev (c :: t'))
               = rev (c :: t')).
  { rewrite Hr. unfold NetworkManager.NEWLINE. cbn [rev app].
    change (lstrip (10%N :: d :: r)) with (lstrip (d :: r)).
    cbn [lstrip]. now rewrite Hd. }
  unfold strip, rstrip. rewrite H1, rev_app_distr, H2.
  apply rev_involutive.
Qed.

(** One entry, cut at its separator. *)
Lemma split_entry (k v : pystr) :
  clean k -> clean v -> split (k ++ py " = " ++ v) (py " = ") = [k; v].
Proof.
  intros Hk Hv. unfold split.
  rewrite split_go_piece; [|discriminate|].
  - rewrite split_go_last; [reflexivity|].
    apply (free_first SPACE), clean_no_space, Hv.
  - apply (free_first SPACE), clean_no_space, Hk.
Qed.

Lemma free_entry (k v tail : pystr) :
  clean k -> COMMA ∉ k -> clean v -> head tail <> Some SPACE ->
  free (py ", ") (k ++ py " = " ++ v) tail.
Proof.
  intros Hk Hcomma Hv Htail.
  apply free_app; [|apply free_app].
  - apply (free_first COMMA). apply Forall_forall. intros c Hc ->.
    now apply Hcomma.
  - apply (free_first COMMA). repeat constructor; discriminate.
  - apply (free_second COMMA SPACE); [now apply clean_no_space|exact Htail].
Qed.

(** The text of the whole dictionary, cut into its entries. *)
Lemma split_entries (pairs : list (pystr * pystr)) :
  pairs <> [] ->
  Forall (fun kv => clean kv.1 /\ (COMMA ∉ kv.1) /\ clean kv.2) pairs ->
  split (NetworkManager.serialize pairs) (py ", ")
  = (fun kv => kv.1 ++ py " = " ++ kv.2) <$> pairs.
Proof.
  intros Hne Hall. unfold NetworkManager.serialize, split.
  induction Hall as [|[k v] pairs (Hk & Hc & Hv) Hall IH]; [congruence|].
  destruct pairs as [|kv' pairs].
  - cbn [List.map NetworkManager.join fmap list_fmap fst snd].
    rewrite split_go_last; [reflexivity|].
    now apply free_entry.
  - cbn [List.map NetworkManager.join fmap list_fmap fst snd].
    cbn [List.map fmap list_fmap] in IH.
    rewrite split_go_piece; [|discriminate|now apply free_entry].
    cbn [rev app]. f_equal. apply IH. discriminate.
Qed.

Lemma serialize_ends (pairs : list (pystr * pystr)) :
  pairs <> [] ->
  Forall (fun kv => clean kv.1 /\ (COMMA ∉ kv.1) /\ clean kv.2) pairs ->
  ends_ok (NetworkManager.serialize pairs).
Proof.
  intros Hne Hall. unfold NetworkManager.serialize.
  induction Hall as [|[k v] pairs (Hk & Hc & Hv) Hall IH]; [congruence|].
  destruct pairs as [|kv' pairs];
    cbn [List.map NetworkManager.join fst snd].
  - now apply clean_ends.
  - apply ends_ok_app; [now apply clean_ends|]. apply IH. discriminate.
Qed.

Lemma dict_update_pairs (pairs : list (pystr * pystr)) :
  forall d,
    dict_update d ((fun kv => [kv.1; kv.2]) <$> pairs)
    = Some (foldl (fun d kv => <[kv.1 := kv.2]> d) d pairs).
Proof.
  induction pairs as [|[k v] pairs IH]; intros d; [reflexivity|].
  cbn [fmap list_fmap dict_update foldl fst snd]. apply IH.
Qed.

Lemma foldl_insert_other (pairs : list (pystr * pystr)) :
  forall (d : gmap (list N) (list N)) k,
    k ∉ pairs.*1 ->
    foldl (fun d kv => <[kv.1 := kv.2]> d) d pairs !! k = d !! k.
Proof.
  induction pairs as [|[k0 v0] pairs IH]; intros d k Hk; [reflexivity|].
  cbn [foldl fst snd]. cbn [fmap list_fmap fst] in Hk.
  apply not_elem_of_cons in Hk as [Hne Hk].
  rewrite IH by exact Hk. now rewrite lookup_insert_ne.
Qed.

Lemma foldl_insert_lookup (pairs : list (pystr * pystr)) :
  forall (d : gmap (list N) (list N)) k v,
    NoDup pairs.*1 -> (k, v) ∈ pairs ->
    foldl (fun d kv => <[kv.1 := kv.2]> d) d pairs !! k = Some v.
Proof.
  induction pairs as [|[k0 v0] pairs IH]; intros d k v Hnd Hin.
  - now apply not_elem_of_nil in Hin.
  - cbn [fmap list_fmap fst] in Hnd. apply NoDup_cons in Hnd as [Hk0 Hnd].
    cbn [foldl fst snd]. apply elem_of_cons in Hin as [[= -> ->]|Hin].
    + rewrite foldl_insert_other by exact Hk0. apply lookup_insert_eq.
    + now apply IH.
Qed.
End Splitting.

Section DataMore.
Context {M : Type} {T : ExternalTool M}.

(** [_get_data] once the query has answered with a text. *)
Lemma _get_data_text self (w : World M) h out text :
  exec (argv_data (name self)) (host w) = (h, (0%Z, out)) ->
  utf8_decode out = Some text ->
  _get_data self w
  = (mkWorld h (stdin w) (web w)
       (log w ++ [EvRun (argv_data (name self)) 0]),
     match dict_update ∅
             (List.map (fun entry => split entry (py " = "))
                (split (strip text) (py ", "))) with
     | Some d => Ok d
     | None => Raise ValueError
     end).
Proof.
  intros Hq Hdec. unfold _get_data.
  unfold mbind at 1, Py_bind at 1. rewrite (check_output_run _ _ _ _ _ Hq).
  cbn [Z.eqb]. unfold mbind at 1, Py_bind at 1. unfold decode. rewrite Hdec.
  cbn [mret Py_ret]. unfold dict.
  now destruct (dict_update _ _).
Qed.
End DataMore.

Section DataPairs.
Context {M : Type} {T : ExternalTool M}.

Lemma _get_data_pairs (self : VpnConnection) (w : World M)
  (h : M) (out : bytes) (pairs : list (pystr * pystr)) :
  exec (argv_data (name self)) (host w) = (h, (0%Z, out)) ->
  utf8_decode out
  = Some (NetworkManager.serialize pairs ++ NetworkManager.NEWLINE) ->
  pairs <> [] ->
  Forall (fun kv => clean kv.1 /\ (COMMA ∉ kv.1) /\ clean kv.2) pairs ->
  _get_data self w
  = (mkWorld h (stdin w) (web w)
       (log w ++ [EvRun (argv_data (name self)) 0]),
     Ok (foldl (fun d kv => <[kv.1 := kv.2]> d) ∅ pairs)).
Proof.
  intros Hq Hdec Hne Hall.
  rewrite (_get_data_text _ _ _ _ _ Hq Hdec).
  rewrite strip_newline by (now apply serialize_ends).
  rewrite split_entries by assumption.
  assert (E : List.map (fun entry => split entry (py " = "))
                ((fun kv => kv.1 ++ py " = " ++ kv.2) <$> pairs)
              = (fun kv => [kv.1; kv.2]) <$> pairs).
  { clear Hdec Hne. induction Hall as [|[k v] pairs (Hk & _ & Hv) _ IH];
      [reflexivity|].
    cbn [fmap list_fmap List.map fst snd]. rewrite split_entry by assumption.
    f_equal. exact IH. }
  rewrite E, dict_update_pairs. reflexivity.
Qed.
End DataPairs.

(** X14: the dictionary read back.  When the data query prints
    ["key1 = value1, key2 = value2"] and a newline, for keys and values that
    are not empty and hold no white space, the keys holding no comma either,
    [_get_data] returns the dictionary of these pairs: a later pair replaces
    an earlier one with the same key, and with distinct keys every pair is
    found under its key. *)
Theorem _get_data_round_trip
  {M : Type} {T : ExternalTool M} (self : VpnConnection) (w : World M)
  (h : M) (out : bytes) (pairs : list (pystr * pystr)) :
  exec (argv_data (name self)) (host w) = (h, (0%Z, out)) ->
  utf8_decode out
  = Some (NetworkManager.serialize pairs ++ NetworkManager.NEWLINE) ->
  pairs <> [] ->
  Forall (fun kv => clean kv.1 /\ (COMMA ∉ kv.1) /\ clean kv.2) pairs ->
  let d := foldl (fun d kv => <[kv.1 := kv.2]> d) ∅ pairs in
  _get_data self w
  = (mkWorld h (stdin w) (web w)
       (log w ++ [EvRun (argv_data (name self)) 0]),
     Ok d)
  /\ (NoDup pairs.*1 -> forall k v, (k, v) ∈ pairs -> d !! k = Some v).
Proof.
  intros Hq Hdec Hne Hall d. split.
  - exact (_get_data_pairs _ _ _ _ _ Hq Hdec Hne Hall).
  - intros Hnd k v Hin. now apply foldl_insert_lookup.
Qed.

(** X15: a profile without data cannot be read.  When the data query prints
    nothing but white space, [_get_data] raises [ValueError]: the one empty
    entry does not split into a key and a value. *)
Theorem _get_data_empty
  {M : Type} {T : ExternalTool M} (self : VpnConnection) (w : World M)
  (h : M) (out : bytes) (text : pystr) :
  exec (argv_data (name self)) (host w) = (h, (0%Z, out)) ->
  utf8_decode out = Some text ->
  strip text = [] ->
  _get_data self w
  = (mkWorld h (stdin w) (web w)
       (log w ++ [EvRun (argv_data (name self)) 0]),
     Raise ValueError).
Proof.
  intros Hq Hdec Hs. rewrite (_get_data_text _ _ _ _ _ Hq Hdec), Hs.
  reflexivity.
Qed.

(** X16: the format has no escaping.  A value that holds [" = "], or
    [", "], between two clean parts (the first without a comma) makes
    [_get_data] raise [ValueError]: the entry splits into three items, or
    the text into an entry too many, which has one item. *)
Theorem _get_data_separator_in_value
  {M : Type} {T : ExternalTool M} (self : VpnConnection) (w : World M)
  (h : M) (out : bytes) (k v1 v2 sep : pystr) :
  exec (argv_data (name self)) (host w) = (h, (0%Z, out)) ->
  sep = py " = " \/ sep = py ", " ->
  utf8_decode out
  = Some (k ++ py " = " ++ (v1 ++ sep ++ v2) ++ NetworkManager.NEWLINE) ->
  clean k -> COMMA ∉ k -> clean v1 -> COMMA ∉ v1 -> clean v2 ->
  _get_data self w
  = (mkWorld h (stdin w) (web w)
       (log w ++ [EvRun (argv_data (name self)) 0]),
     Raise ValueError).
Proof.
  intros Hq Hsep Hdec Hk Hcomma Hv1 Hcomma1 Hv2.
  rewrite (_get_data_text _ _ _ _ _ Hq Hdec).
  replace (k ++ py " = " ++ (v1 ++ sep ++ v2) ++ NetworkManager.NEWLINE)
    with ((k ++ (py " = " ++ v1 ++ sep) ++ v2) ++ NetworkManager.NEWLINE)
    by (now rewrite <- !app_assoc).
  rewrite strip_newline by (now apply clean_ends).
  destruct Hsep as [-> | ->].
  - assert (E : split (k ++ (py " = " ++ v1 ++ py " = ") ++ v2) (py ", ")
                = [k ++ (py " = " ++ v1 ++ py " = ") ++ v2]).
    { unfold split. rewrite split_go_last; [reflexivity|].
      apply free_app; [|apply free_app; [apply free_app; [|apply free_app]|]].
      - apply (free_first COMMA). apply Forall_forall. intros c Hc ->.
        now apply Hcomma.
      - apply (free_first COMMA). repeat constructor; discriminate.
      - apply (free_first COMMA). apply Forall_forall. intros c Hc ->.
        now apply Hcomma1.
      - apply (free_first COMMA). repeat constructor; discriminate.
      - apply (free_second COMMA SPACE); [now apply clean_no_space|discriminate]. }
    rewrite <- !app_assoc in E. rewrite <- !app_assoc. rewrite E.
    cbn [List.map]. unfold split.
    rewrite split_go_piece;
      [|discriminate|apply (free_first SPACE), clean_no_space, Hk].
    rewrite split_go_piece;
      [|discriminate|apply (free_first SPACE), clean_no_space, Hv1].
    rewrite split_go_last
      by (apply (free_first SPACE), clean_no_space, Hv2).
    reflexivity.
  - assert (E : split (k ++ (py " = " ++ v1 ++ py ", ") ++ v2) (py ", ")
                = [k ++ py " = " ++ v1; v2]).
    { unfold split. rewrite <- !app_assoc.
      replace (k ++ py " = " ++ v1 ++ py ", " ++ v2)
        with ((k ++ py " = " ++ v1) ++ py ", " ++ v2)
        by (now rewrite <- !app_assoc).
      rewrite split_go_piece;
        [|discriminate|apply free_entry; [assumption..|discriminate]].
      rewrite split_go_last; [reflexivity|].
      apply (free_second COMMA SPACE); [now apply clean_no_space|discriminate]. }
    rewrite E. cbn [List.map]. rewrite split_entry by assumption.
    unfold split at 1.
    rewrite split_go_last
      by (apply (free_first SPACE), clean_no_space, Hv2).
    reflexivity.
Qed.

(** ** Writing and reading back on the reference host *)

Section ReadBack.
Import NetworkManager.

Lemma byte_of_to_N (c : N) : (c < 256)%N -> Byte.to_N (byte_of c) = c.
Proof.
  intros Hc. unfold byte_of.
  destruct (Byte.of_N c) as [b|] eqn:E.
  - now apply Byte.to_of_N.
  - apply Byte.of_N_None_iff in E. lia.
Qed.

(** ASCII text survives the codec. *)
Lemma utf8_ascii (s : pystr) :
  Forall (fun c => c < 128)%N s -> utf8_decode (utf8_encode s) = Some s.
Proof.
  induction 1 as [|c s Hc Hs IH]; [reflexivity|].
  unfold utf8_encode. cbn [List.map concat]. fold (utf8_encode s).
  unfold utf8_encode_char. destruct (N.ltb_spec c 128) as [_|]; [|lia].
  cbn [app utf8_decode]. rewrite byte_of_to_N by lia.
  destruct (N.ltb_spec c 128) as [_|]; [|lia].
  now rewrite IH.
Qed.

Lemma put_elem (k v : pystr) (l : list (pystr * pystr)) : (k, v) ∈ put k v l.
Proof.
  induction l as [|[k' v'] l IH]; cbn [put]; [now left|].
  case_bool_decide; [now left|now right].
Qed.

Lemma put_Forall (P : pystr * pystr -> Prop) k v l :
  P (k, v) -> Forall P l -> Forall P (put k v l).
Proof.
  intros Hkv. induction 1 as [|[k' v'] l Hx Hl IH]; cbn [put];
    [now repeat constructor|].
  case_bool_decide; now constructor.
Qed.

Lemma put_keys k v l : k ∈ l.*1 -> (put k v l).*1 = l.*1.
Proof.
  induction l as [|[k' v'] l IH]; cbn [put fmap list_fmap fst].
  - intros H. now apply not_elem_of_nil in H.
  - intros H. case_bool_decide as E; [now subst|].
    cbn [fmap list_fmap fst]. f_equal. apply IH.
    apply elem_of_cons in H as [->|H]; [congruence|exact H].
Qed.

Lemma put_NoDup k v l : NoDup l.*1 -> NoDup (put k v l).*1.
Proof.
  induction l as [|[k' v'] l IH]; cbn [put fmap list_fmap fst]; intros Hnd.
  - cbn. apply NoDup_singleton.
  - apply NoDup_cons in Hnd as [Hk' Hnd].
    case_bool_decide as E; [subst; now apply NoDup_cons|].
    cbn [fmap list_fmap fst]. apply NoDup_cons. split; [|now apply IH].
    intros Hin. apply Hk'. clear IH Hnd Hk'.
    induction l as [|[k2 v2] l IH]; cbn [put fmap list_fmap fst] in *.
    + apply list_elem_of_singleton in Hin. congruence.
    + revert Hin. case_bool_decide as E2; cbn [fmap list_fmap fst].
      * subst. intros Hin. apply elem_of_cons in Hin as [->|Hin];
          [congruence|now right].
      * intros Hin. apply elem_of_cons in Hin as [->|Hin];
          [now left|right; now apply IH].
Qed.

Lemma put_nonempty k v l : put k v l <> [].
Proof. destruct l as [|[k' v'] l]; cbn [put]; [|case_bool_decide]; discriminate. Qed.

Lemma join_ascii (sep : pystr) (l : list pystr) :
  Forall (fun c => c < 128)%N sep ->
  Forall (Forall (fun c => c < 128)%N) l ->
  Forall (fun c => c < 128)%N (join sep l).
Proof.
  intros Hsep. induction 1 as [|x l Hx Hl IH]; [constructor|].
  destruct l as [|y l]; cbn [join]; [exact Hx|].
  apply Forall_app. split; [exact Hx|]. apply Forall_app. now split.
Qed.

(** The run that writes a pair, and the run that prints the data. *)
Lemma run_mod (m : state) (key value : pystr) :
  Forall (fun c => c <> 61%N) key ->
  run (argv_mod (profile m) key value) m
  = ({| profile := profile m; active := active m;
        vpn_data := put key value (vpn_data m) |}, (0%Z, [])).
Proof.
  intros Hkey.
  assert (Hcut : forall acc, cut (key ++ py "=" ++ value) acc = (rev acc ++ key, value)).
  { induction Hkey as [|c key Hc Hkey IH]; intros acc.
    - cbn. now rewrite app_nil_r.
    - cbn [app cut]. destruct (N.eqb_spec c 61); [contradiction|].
      rewrite IH. cbn [rev]. now rewrite <- app_assoc. }
  unfold run, argv_mod.
  rewrite bool_decide_eq_false_2 by (intros [=]).
  rewrite bool_decide_eq_false_2 by (intros [=]).
  rewrite Hcut. cbn [rev app fst snd].
  rewrite bool_decide_eq_true_2 by reflexivity.
  unfold known. now rewrite bool_decide_eq_true_2 by reflexivity.
Qed.

Lemma run_data (m : state) :
  run (argv_data (profile m)) m
  = (m, (0%Z, utf8_encode (serialize (vpn_data m) ++ NEWLINE))).
Proof.
  unfold run, argv_data.
  rewrite bool_decide_eq_false_2 by (intros [=]).
  rewrite bool_decide_eq_true_2 by reflexivity.
  unfold known. now rewrite bool_decide_eq_true_2 by reflexivity.
Qed.

Lemma put_other (k0 v0 k v : pystr) (l : list (pystr * pystr)) :
  (k, v) ∈ l -> k <> k0 -> (k, v) ∈ put k0 v0 l.
Proof.
  intros Hin Hne. induction l as [|[k' v'] l IH]; cbn [put].
  - now apply not_elem_of_nil in Hin.
  - apply elem_of_cons in Hin as [[= <- <-]|Hin]; case_bool_decide as E.
    + congruence.
    + now left.
    + now right.
    + right. now apply IH.
Qed.

Lemma serialize_ascii (l : list (pystr * pystr)) :
  Forall (fun kv => Forall (fun c => c < 128)%N kv.1
                    /\ Forall (fun c => c < 128)%N kv.2) l ->
  Forall (fun c => c < 128)%N (serialize l ++ NEWLINE).
Proof.
  intros Hl. apply Forall_app. split; [|repeat constructor].
  apply join_ascii; [repeat constructor|].
  induction Hl as [|[k v] l [Hk Hv] Hl IH]; [constructor|].
  cbn [List.map fst snd]. constructor; [|exact IH].
  apply Forall_app. split; [exact Hk|]. apply Forall_app.
  split; [repeat constructor|exact Hv].
Qed.
End ReadBack.

(** X17: what [set_remote_address] writes, [_get_data] reads.  On the
    reference host, for an address of ASCII characters that is not empty and
    holds no white space, and a profile whose data are of that kind too
    (keys without comma, no key twice), [_get_data] after
    [set_remote_address x] returns a dictionary with [x] under "remote" and
    every other entry of the profile as it was. *)
Theorem set_remote_address_read_back
  (self : VpnConnection) (w : World NetworkManager.state) (x : pystr) :
  let old := NetworkManager.vpn_data (host w) in
  name self = NetworkManager.profile (host w) ->
  clean x ->
  Forall (fun c => c < 128)%N x ->
  Forall (fun kv => (clean kv.1 /\ (COMMA ∉ kv.1) /\ clean kv.2)
                    /\ Forall (fun c => c < 128)%N kv.1
                    /\ Forall (fun c => c < 128)%N kv.2) old ->
  NoDup old.*1 ->
  exists w' d,
    (set_remote_address self x ;; _get_data self) w = (w', Ok d)
    /\ d !! py "remote" = Some x
    /\ forall k v, (k, v) ∈ old -> k <> py "remote" -> d !! k = Some v.
Proof.
  intros old Hname Hx Hascii Hold Hnd.
  set (new := NetworkManager.put (py "remote") x old).
  set (m1 := {| NetworkManager.profile := NetworkManager.profile (host w);
                NetworkManager.active := NetworkManager.active (host w);
                NetworkManager.vpn_data := new |}).
  assert (Hset : set_remote_address self x w
                 = (mkWorld m1 (stdin w) (web w)
                      (log w ++ [EvRun (argv_mod (name self) (py "remote") x) 0]),
                    Ok tt)).
  { assert (Hexec : exec (argv_mod (name self) (py "remote") x) (host w)
                     = (m1, (0%Z, []))).
    { rewrite Hname. apply run_mod. repeat constructor; discriminate. }
    unfold set_remote_address, set_data_item, mbind, Py_bind.
    now rewrite (check_output_run _ _ _ _ _ Hexec). }
  rewrite (bind_ok _ _ _ _ _ Hset).
  assert (Hnew : Forall (fun kv => clean kv.1 /\ (COMMA ∉ kv.1) /\ clean kv.2) new).
  { apply put_Forall.
    - split; [|split; [|exact Hx]].
      + split; [discriminate|repeat constructor].
      + unfold COMMA. intros H. repeat (apply elem_of_cons in H as [H|H];
          [discriminate H|]). now apply not_elem_of_nil in H.
    - eapply Forall_impl; [exact Hold|]. now intros kv [H _]. }
  assert (Hout : utf8_decode
                   (utf8_encode (NetworkManager.serialize new
                                 ++ NetworkManager.NEWLINE))
                 = Some (NetworkManager.serialize new ++ NetworkManager.NEWLINE)).
  { apply utf8_ascii, serialize_ascii.
    apply put_Forall.
    - split; [repeat constructor; reflexivity|exact Hascii].
    - eapply Forall_impl; [exact Hold|]. now intros kv [_ H]. }
  eexists _, _. split; [|split].
  - eapply (_get_data_pairs self _ m1 _ new); [|exact Hout| |exact Hnew].
    + cbn [host]. rewrite Hname. exact (run_data m1).
    + apply put_nonempty.
  - apply foldl_insert_lookup;
      [now apply put_NoDup|apply put_elem].
  - intros k v Hin Hne. apply foldl_insert_lookup;
      [now apply put_NoDup|now apply put_other].
Qed.


(** ** Runs of the further properties on the reference host *)

Section FurtherRuns.
Import NetworkManager Examples Runs.

(** Typing 2 against the two example servers. *)
Lemma typed_number_selects_witness :
  get_chosen_server [france; germany] (world_up [py "2"])
  = (consumed (world_up [py "2"]) [] [EvPrompt PROMPT], Ok germany).
Proof.
  apply (typed_number_selects [france; germany] (world_up [py "2"]) 1 germany []);
    reflexivity.
Defined.

(** Two lines, neither of them the number of a server. *)
Lemma get_chosen_server_input_ends_witness :
  get_chosen_server [france; germany] (world_up [py "abc"; py "9"])
  = (consumed (world_up [py "abc"; py "9"]) []
       [EvPrompt PROMPT; EvWrite INVALID; EvPrompt PROMPT; EvWrite INVALID;
        EvPrompt PROMPT],
     Raise EOFError).
Proof.
  apply (get_chosen_server_input_ends [france; germany]
           (world_up [py "abc"; py "9"])).
  constructor; [left; reflexivity|].
  constructor; [|constructor].
  right. exists 9%Z. split; [reflexivity|]. cbn. lia.
Defined.

(** The table of the two example servers. *)
Lemma print_servers_list_table_witness :
  exists lines,
    print_servers_list [france; germany] (world_up [])
    = (logged (world_up [])
         (EvWrite (py "Number" ++ TAB ++ py "Location" ++ TAB ++ py "Address")
          :: (EvWrite <$> lines)),
       Ok tt)
    /\ length lines = 2%nat.
Proof.
  destruct (print_servers_list_table example_rows (world_up []))
    as (lines & Hrun & _ & Hlen & _); [discriminate|].
  exists lines. split; [exact Hrun|exact Hlen].
Defined.


(** The guarded operations on an active profile. *)
Lemma connect_only_if_disconnected_witness :
  connect vpn true (world_up [])
  = (logged (world_up []) [EvRun (argv_state DEFAULT_CONNECTION_NAME) 0],
     Ok tt).
Proof.
  apply (connect_only_if_disconnected vpn (world_up []) host_up 0
           (utf8_encode (py "activated" ++ NEWLINE))).
  reflexivity.
Defined.

Lemma disconnect_only_if_connected_witness :
  disconnect vpn true (world_down [])
  = (logged (world_down []) [EvRun (argv_state DEFAULT_CONNECTION_NAME) 0],
     Ok tt).
Proof.
  apply (disconnect_only_if_connected vpn (world_down []) host_down 0 []).
  reflexivity.
Defined.

(** Turning off a profile that is not active: nothing to do, status 0. *)
Lemma script_disconnect_mode_witness :
  script {| arg_connection := DEFAULT_CONNECTION_NAME; arg_disconnect := true;
            arg_url := Some (py "10.0.0.2"); arg_list := true;
            arg_verbose := false; arg_server_list_url := URL |}
    (world_down [])
  = (logged (world_down []) [EvRun (argv_state DEFAULT_CONNECTION_NAME) 0],
     0%Z).
Proof.
  apply (script_disconnect_mode
           {| arg_connection := DEFAULT_CONNECTION_NAME; arg_disconnect := true;
              arg_url := Some (py "10.0.0.2"); arg_list := true;
              arg_verbose := false; arg_server_list_url := URL |}
           (world_down []) host_down 0 []); reflexivity.
Defined.

(** Writing an address to a profile the host does not know. *)
Lemma script_url_mode_witness :
  (script (connect_other (py "10.0.0.2")) (world_up [])).2 = UNKNOWN_CONNECTION.
Proof.
  destruct (script_url_mode (connect_other (py "10.0.0.2")) (world_up [])
              (py "10.0.0.2") host_up UNKNOWN_CONNECTION [])
    as (h' & evs & _ & _ & Hfail); [reflexivity..|].
  destruct Hfail as (_ & _ & ->); [discriminate|reflexivity].
Defined.

(** Listing the example page. *)
Lemma script_list_mode_witness :
  exists evs,
    (script list_only (world_up [])).1 = logged (world_up []) evs
    /\ Forall (fun e => is_run e = false) evs.
Proof.
  destruct (script_list_mode list_only (world_up []))
    as (evs & Hrun & Hquiet & _); [reflexivity..|].
  now exists evs.
Defined.

(** Asking, with an input that has already ended. *)
Lemma script_interactive_mode_witness :
  (exists rest evs,
      script ask_user (world_up []) = (consumed (world_up []) rest evs, 1%Z)
      /\ Forall (fun e => is_run e = false) evs)
  \/ (exists servers sv,
         (get_servers_list URL
            (logged (world_up []) [EvWrite (py "Fetching servers list...")])).2
         = Ok servers
         /\ sv ∈ servers).
Proof.
  destruct (script_interactive_mode ask_user (world_up []))
    as [H | (servers & sv & _ & _ & _ & _ & _ & Hf & Hsv & _)];
    [reflexivity..| |].
  - now left.
  - right. now exists servers, sv.
Defined.

Ltac not_among :=
  let H := fresh in
  intros H;
  repeat (apply elem_of_cons in H as [H|H]; [discriminate H|]);
  now apply not_elem_of_nil in H.

Ltac is_clean := split; [discriminate|repeat constructor].

(** The data of the active example profile. *)
Lemma _get_data_round_trip_witness :
  exists w' d,
    _get_data vpn (world_up []) = (w', Ok d)
    /\ d !! py "remote" = Some (py "10.0.0.1")
    /\ d !! py "port" = Some (py "1194").
Proof.
  destruct (_get_data_round_trip vpn (world_up []) host_up
              (utf8_encode (serialize (vpn_data host_up) ++ NEWLINE))
              (vpn_data host_up)) as [Hrun Hlook].
  - reflexivity.
  - reflexivity.
  - discriminate.
  - repeat constructor; cbn [fst snd]; try discriminate; not_among.
  - eexists _, _. split; [exact Hrun|].
    assert (Hnd : NoDup (vpn_data host_up).*1).
    { cbn. apply NoDup_cons. split; [not_among|].
      apply NoDup_cons. split; [not_among|]. apply NoDup_nil_2. }
    split; apply (Hlook Hnd); cbn; [now left|right; now left].
Defined.

(** The inactive example profile holds no data. *)
Lemma _get_data_empty_witness :
  (_get_data vpn (world_down [])).2 = Raise ValueError.
Proof.
  rewrite (_get_data_empty vpn (world_down []) host_down
             (utf8_encode NEWLINE) NEWLINE); reflexivity.
Defined.

(** A value with the separator of key and value in it. *)
Lemma _get_data_separator_in_value_witness :
  (_get_data vpn world_odd).2 = Raise ValueError.
Proof.
  rewrite (_get_data_separator_in_value vpn world_odd host_odd
             (utf8_encode (serialize (vpn_data host_odd) ++ NEWLINE))
             (py "remote") (py "a") (py "b") (py " = "));
    try reflexivity;
    [now left | is_clean | not_among | is_clean | not_among | is_clean].
Defined.

(** A new address for the active example profile: the port stays. *)
Lemma set_remote_address_read_back_witness :
  exists w' d,
    (set_remote_address vpn (py "10.9.8.7") ;; _get_data vpn) (world_up [])
    = (w', Ok d)
    /\ d !! py "remote" = Some (py "10.9.8.7")
    /\ d !! py "port" = Some (py "1194").
Proof.
  destruct (set_remote_address_read_back vpn (world_up []) (py "10.9.8.7"))
    as (w' & d & Hrun & Hremote & Hother).
  - reflexivity.
  - is_clean.
  - repeat constructor.
  - repeat constructor; cbn [fst snd]; try discriminate; not_among.
  - cbn. apply NoDup_cons. split; [not_among|].
    apply NoDup_cons. split; [not_among|]. apply NoDup_nil_2.
  - exists w', d. split; [exact Hrun|]. split; [exact Hremote|].
    apply Hother; [cbn; right; now left|discriminate].
Defined.
End FurtherRuns.
